(** * Inventory reorder predictor: the prediction pipeline of [InventoryPredictor]

    The component exists in the repository in three revisions that share one
    [handlePredict] and differ in the rule that labels a record and in the
    metric they derive: the reorder point ([calculateReorderPoint]), the days
    to replenish ([calculateDaysToReplenish]), and no metric at all.  This
    development embeds the revisions, the JavaScript values they compute on,
    and the effects of a run (React state setters, tensors of the numeric
    library).  A run of [handlePredict] is taken as a whole: what happens at
    its [await]s is the library's, and no other handler writes the state in
    between. *)

From Stdlib Require Import ZArith Bool String List Lia.
From Stdlib Require Import Floats.SpecFloat.
From stdpp Require Import base option list gmap.

Local Open Scope Z_scope.

(** ** JavaScript numbers

    A JavaScript number is an IEEE 754 binary64 value.  [spec_float] is the
    Standard Library's executable specification of such values (one NaN, two
    zeros, two infinities, finite values [(-1)^s * m * 2^e]); the operations
    round to nearest, ties to even, as the language does. *)
Module Number.

Definition prec : Z := 53.
Definition emax : Z := 1024.

Definition number : Type := spec_float.

Definition NaN : number := S754_nan.

(** The number [m * 2^e], rounded. *)
Definition of_scaled (m e : Z) : number := binary_normalize prec emax m e false.

(** An integer literal. *)
Definition of_Z (z : Z) : number := of_scaled z 0.

Definition mul : number -> number -> number := SFmul prec emax.
Definition div : number -> number -> number := SFdiv prec emax.

(** [x <= y], [x < y], [x === y] on numbers: false as soon as one is NaN. *)
Definition leb : number -> number -> bool := SFleb.
Definition ltb : number -> number -> bool := SFltb.
Definition eqb : number -> number -> bool := SFeqb.

Definition is_nan (x : number) : bool :=
  match x with S754_nan => true | _ => false end.

Definition is_finite (x : number) : bool :=
  match x with S754_zero _ | S754_finite _ _ _ => true | _ => false end.

(** The representations that are binary64 values: a finite one has its
    mantissa normalised (or its exponent the least one) and is in range. *)
Definition valid (x : number) : bool := valid_binary prec emax x.

(** [Math.floor]: NaN, the infinities and both zeros are returned as they
    are, and so is a finite value with no fractional bit. *)
Definition floor (x : number) : number :=
  match x with
  | S754_finite s m e =>
      if 0 <=? e then x
      else binary_normalize prec emax (cond_Zopp s (Zpos m) / 2 ^ (- e)) 0 s
  | _ => x
  end.

End Number.

Abbreviation number := Number.number.

(** ** JavaScript values of a product record's fields

    A field of a record parsed from JSON that the component reads as a
    number is a number, [null], or absent ([undefined]). *)
Inductive value : Type :=
  | Undefined
  | Null
  | Num (x : number).

(** [ToNumber] *)
Definition to_number (v : value) : number :=
  match v with
  | Undefined => Number.NaN
  | Null => S754_zero false
  | Num x => x
  end.

(** [ToBoolean]: [undefined], [null], [+0], [-0] and [NaN] are falsy. *)
Definition truthy (v : value) : bool :=
  match v with
  | Undefined | Null => false
  | Num x => negb (Number.eqb x (S754_zero false) || Number.is_nan x)
  end.

(** [a || b] *)
Definition js_or (a b : value) : value := if truthy a then a else b.

(** [a * b], [a / b], [a <= b], [a > b] *)
Definition js_mul (a b : value) : value := Num (Number.mul (to_number a) (to_number b)).
Definition js_div (a b : value) : value := Num (Number.div (to_number a) (to_number b)).
Definition js_le (a b : value) : bool := Number.leb (to_number a) (to_number b).
Definition js_gt (a b : value) : bool := Number.ltb (to_number b) (to_number a).

(** [a === b] *)
Definition js_strict_eq (a b : value) : bool :=
  match a, b with
  | Undefined, Undefined | Null, Null => true
  | Num x, Num y => Number.eqb x y
  | _, _ => false
  end.

Definition Math_floor (v : value) : value := Num (Number.floor (to_number v)).

(** Number literals of the source. *)
Definition lit (z : Z) : value := Num (Number.of_Z z).
Definition lit_half : value := Num (Number.of_scaled 1 (-1)).

(** ** Data of the component *)

(** A product record of the catalog.  Other fields of the fetched objects
    (among them the metric the fetch handler adds for display) are not read
    by [handlePredict]. *)
Record product : Type := {
  name : string;
  stock : value;
  average_weekly_sales : value;
  lead_time : value
}.

(** The two strings of the [prediction] field. *)
Inductive decision : Type := Reorder | NoReorder.

(** An object pushed to [preds].  [derived] is the field [reorder_point] in
    one revision and [days_to_replenish] in another; the third has no such
    field, and reading it gives [undefined]. *)
Record result : Type := {
  r_name : string;
  prediction : decision;
  r_stock : value;
  avgSales : value;
  leadTime : value;
  derived : value
}.

(** ** The numeric library

    A tensor owns a buffer until [dispose] is called on it.  [tensors] of the
    world below is the library's table of the buffers that are allocated. *)
Inductive origin : Type := FromTensor2d | FromPredict.

Record tensor : Type := {
  tid : nat;
  made_by : origin;
  values : list (list value)
}.

(** What the component cannot see inside the library: building, compiling
    and fitting the network either returns a model or throws ([None]), and so
    does reading the first entry of a model's output for one input. *)
Class TensorFlow : Type := {
  Model : Type;
  model_fit : list (list value) -> list (list value) -> nat -> option Model;
  model_predict_data : Model -> list (list value) -> option number
}.

(** ** State *)

(** The hooks of the component ([useState]), the table of allocated tensors
    and the calls of [model.fit] made so far (inputs, outputs, epochs). *)
Record world : Type := {
  products : list product;
  predictionResults : list result;
  loading : bool;
  predicting : bool;
  error : option string;
  tensors : gmap nat tensor;
  next_tensor : nat;
  fit_log : list (list (list value) * list (list value) * nat)
}.

Definition setProducts (ps : list product) (w : world) : world :=
  {| products := ps; predictionResults := predictionResults w;
     loading := loading w; predicting := predicting w; error := error w;
     tensors := tensors w; next_tensor := next_tensor w; fit_log := fit_log w |}.

Definition setPredictionResults (rs : list result) (w : world) : world :=
  {| products := products w; predictionResults := rs;
     loading := loading w; predicting := predicting w; error := error w;
     tensors := tensors w; next_tensor := next_tensor w; fit_log := fit_log w |}.

Definition setLoading (b : bool) (w : world) : world :=
  {| products := products w; predictionResults := predictionResults w;
     loading := b; predicting := predicting w; error := error w;
     tensors := tensors w; next_tensor := next_tensor w; fit_log := fit_log w |}.

Definition setPredicting (b : bool) (w : world) : world :=
  {| products := products w; predictionResults := predictionResults w;
     loading := loading w; predicting := b; error := error w;
     tensors := tensors w; next_tensor := next_tensor w; fit_log := fit_log w |}.

Definition setError (e : option string) (w : world) : world :=
  {| products := products w; predictionResults := predictionResults w;
     loading := loading w; predicting := predicting w; error := e;
     tensors := tensors w; next_tensor := next_tensor w; fit_log := fit_log w |}.

Definition with_tensors (ts : gmap nat tensor) (n : nat) (w : world) : world :=
  {| products := products w; predictionResults := predictionResults w;
     loading := loading w; predicting := predicting w; error := error w;
     tensors := ts; next_tensor := n; fit_log := fit_log w |}.

Definition log_fit (c : list (list value) * list (list value) * nat) (w : world) : world :=
  {| products := products w; predictionResults := predictionResults w;
     loading := loading w; predicting := predicting w; error := error w;
     tensors := tensors w; next_tensor := next_tensor w; fit_log := fit_log w ++ [c] |}.

(** ** Effects

    A handler either returns or throws; what it did to the state before it
    threw stays done. *)
Inductive outcome (A : Type) : Type :=
  | Returned (a : A)
  | Thrown.
Arguments Returned {A} a.
Arguments Thrown {A}.

Definition M (A : Type) : Type := world -> outcome A * world.

#[global] Instance M_ret : MRet M := fun A a w => (Returned a, w).

#[global] Instance M_bind : MBind M := fun A B k c w =>
  match c w with
  | (Returned a, w') => k a w'
  | (Thrown, w') => (Thrown, w')
  end.

Definition modify (f : world -> world) : M unit := fun w => (Returned tt, f w).

Section Library.
Context `{tf : TensorFlow}.

(** [tf.tensor2d(values)] *)
Definition tensor2d (vs : list (list value)) : M tensor := fun w =>
  let t := {| tid := next_tensor w; made_by := FromTensor2d; values := vs |} in
  (Returned t, with_tensors (<[tid t := t]> (tensors w)) (S (next_tensor w)) w).

(** [t.dispose()] *)
Definition dispose (t : tensor) : M unit :=
  modify (fun w => with_tensors (delete (tid t) (tensors w)) (next_tensor w) w).

(** [tf.sequential()], the two [model.add], [model.compile] and
    [await model.fit(xs, ys, { epochs, shuffle: true })] *)
Definition fit (xs ys : tensor) (epochs : nat) : M Model := fun w =>
  let w' := log_fit (values xs, values ys, epochs) w in
  match model_fit (values xs) (values ys) epochs with
  | Some m => (Returned m, w')
  | None => (Thrown, w')
  end.

(** [(await model.predict(t).data())[0]]: the output of [model.predict] is
    a tensor of its own, which [data()] reads. *)
Definition predict_data0 (model : Model) (t : tensor) : M value := fun w =>
  match model_predict_data model (values t) with
  | Some y =>
      let out := {| tid := next_tensor w; made_by := FromPredict; values := [[Num y]] |} in
      (Returned (Num y), with_tensors (<[tid out := out]> (tensors w)) (S (next_tensor w)) w)
  | None => (Thrown, w)
  end.

End Library.

(** ** The prediction run

    [handlePredict] is the same in all revisions but for the rule that
    labels a record, the metric echoed in a result and the epoch count. *)
Record revision : Type := {
  label_of : product -> value;
  metric_of : product -> value;
  epochs_of : nat
}.

Section Run.
Context `{tf : TensorFlow}.
Variable rev : revision.

(** The row [[p.stock, p.average_weekly_sales || 0, p.lead_time || 0]]. *)
Definition features (p : product) : list value :=
  [stock p; js_or (average_weekly_sales p) (lit 0); js_or (lead_time p) (lit 0)].

Definition trainingInputs (ps : list product) : list (list value) :=
  map features ps.

Definition trainingOutputs (ps : list product) : list value :=
  map (label_of rev) ps.

(** [tf.tensor2d(trainingOutputs, [trainingOutputs.length, 1])]: one row
    of one entry per label. *)
Definition column (ys : list value) : list (list value) :=
  map (fun y => [y]) ys.

(** The body of [for (const p of products)], for one [p]. *)
Definition predict_one (model : Model) (p : product) : M result :=
  inputTensor ← tensor2d [features p];
  predVal ← predict_data0 model inputTensor;
  dispose inputTensor;;
  mret {| r_name := name p;
          prediction := if js_gt predVal lit_half then Reorder else NoReorder;
          r_stock := stock p;
          avgSales := average_weekly_sales p;
          leadTime := lead_time p;
          derived := metric_of rev p |}.

(** The loop, with [preds] as it stands when the loop reaches [ps]. *)
Fixpoint predict_loop (model : Model) (ps : list product) (preds : list result)
  : M (list result) :=
  match ps with
  | [] => mret preds
  | p :: rest =>
      r ← predict_one model p;
      predict_loop model rest (preds ++ [r])
  end.

Definition handlePredict : M unit := fun w =>
  if (length (products w) =? 0)%nat then (Returned tt, w)
  else
    (modify (setPredicting true);;
     trainXs ← tensor2d (trainingInputs (products w));
     trainYs ← tensor2d (column (trainingOutputs (products w)));
     model ← fit trainXs trainYs (epochs_of rev);
     dispose trainXs;;
     dispose trainYs;;
     preds ← predict_loop model (products w) [];
     modify (setPredictionResults preds);;
     modify (setPredicting false)) w.

(** [if (loading)] and [if (error)] of the render: what is shown instead of
    the table and its button.  The empty string is falsy. *)
Definition shows_error (w : world) : bool :=
  match error w with
  | None | Some EmptyString => false
  | Some _ => true
  end.

(** The Predict button: the component renders it only when it is neither
    loading nor in error, and [disabled={predicting}] keeps a click from
    reaching [onClick]. *)
Definition click_Predict : M unit := fun w =>
  if loading w || shows_error w || predicting w
  then (Returned tt, w)
  else handlePredict w.

End Run.

(** ** The revisions *)

Module ReorderPoint.

Definition calculateReorderPoint (avgSales leadTime : value) : value :=
  let sales := js_or avgSales (lit 0) in
  let time := js_or leadTime (lit 0) in
  js_mul sales time.

(** An entry of [trainingOutputs]. *)
Definition label (p : product) : value :=
  let reorderPoint := calculateReorderPoint (average_weekly_sales p) (lead_time p) in
  if js_le (stock p) reorderPoint then lit 1 else lit 0.

Definition metric (p : product) : value :=
  calculateReorderPoint (average_weekly_sales p) (lead_time p).

Definition rev : revision :=
  {| label_of := label; metric_of := metric; epochs_of := 80 |}.

End ReorderPoint.

Module DaysToReplenish.

Definition calculateDaysToReplenish (stock avgWeeklySales : value) : value :=
  let safeStock := js_or stock (lit 0) in
  let safeSales := js_or avgWeeklySales (lit 0) in
  if js_strict_eq safeSales (lit 0) then lit 999
  else
    let dailySales := js_div safeSales (lit 7) in
    Math_floor (js_div safeStock dailySales).

(** An entry of [trainingOutputs]. *)
Definition label (p : product) : value :=
  let daysLeft := calculateDaysToReplenish (stock p) (average_weekly_sales p) in
  if js_le daysLeft (js_or (lead_time p) (lit 0)) then lit 1 else lit 0.

Definition metric (p : product) : value :=
  calculateDaysToReplenish (stock p) (average_weekly_sales p).

Definition rev : revision :=
  {| label_of := label; metric_of := metric; epochs_of := 50 |}.

End DaysToReplenish.

Module SalesThreshold.

(** An entry of [trainingOutputs]:
    [p.stock <= (p.average_weekly_sales || 0) ? 1 : 0]. *)
Definition label (p : product) : value :=
  if js_le (stock p) (js_or (average_weekly_sales p) (lit 0)) then lit 1 else lit 0.

Definition metric (p : product) : value := Undefined.

Definition rev : revision :=
  {| label_of := label; metric_of := metric; epochs_of := 80 |}.

End SalesThreshold.

(** ** The life of the component

    The state the hooks start from, the two ways the one fetch of the mount
    effect settles, and calls of [handlePredict].  A call is taken as one
    step: nothing else writes the hooks while a run is suspended. *)
Definition initial : world :=
  {| products := []; predictionResults := []; loading := true;
     predicting := false; error := None;
     tensors := ∅; next_tensor := 0; fit_log := [] |}.

Definition fetch_resolved (data : list product) (w : world) : world :=
  setLoading false (setProducts data w).

(** [setError(err.message || 'Error fetching products')] *)
Definition fetch_rejected (message : string) (w : world) : world :=
  let shown :=
    match message with
    | EmptyString => "Error fetching products"%string
    | _ => message
    end in
  setLoading false (setError (Some shown) w).

Section Life.
Context `{tf : TensorFlow}.
Variable rev : revision.

Inductive step : world -> world -> Prop :=
  | step_resolved w data :
      loading w = true -> step w (fetch_resolved data w)
  | step_rejected w message :
      loading w = true -> step w (fetch_rejected message w)
  | step_predict w o w' :
      handlePredict rev w = (o, w') -> step w w'.

Definition reachable : world -> Prop := rtc step initial.

End Life.

(** ** Vocabulary of the statements *)

Local Open Scope nat_scope.

(** [0 <= x] on numbers: a zero of either sign, a positive finite value or
    [+Infinity]. *)
Definition nonneg (x : number) : bool :=
  match x with
  | S754_zero _ | S754_infinity false | S754_finite false _ _ => true
  | _ => false
  end.

(** The same without [-0]: a number whose sign bit is clear. *)
Definition unsigned (x : number) : bool :=
  match x with
  | S754_zero false | S754_infinity false | S754_finite false _ _ => true
  | _ => false
  end.

(** An input that is not negative: a missing field, [null], or a finite
    number [>= 0]. *)
Definition nonneg_input (v : value) : bool :=
  match v with
  | Undefined | Null => true
  | Num x => Number.is_finite x && nonneg x
  end.

(** The hooks and the log of [model.fit] calls are the same in two worlds. *)
Definition hooks_kept (w w' : world) : Prop :=
  products w' = products w /\
  predictionResults w' = predictionResults w /\
  loading w' = loading w /\
  predicting w' = predicting w /\
  error w' = error w /\
  fit_log w' = fit_log w.

(** No identifier at or above [next_tensor] is in use. *)
Definition fresh_above (w : world) : Prop :=
  forall id, next_tensor w <= id -> tensors w !! id = None.

(** What a stretch of a run from [w] to [w'] may have done to the table of
    tensors: the tensors of [w] are all still there, and what was added is
    output of [model.predict]. *)
Definition only_outputs_added (w w' : world) : Prop :=
  next_tensor w <= next_tensor w' /\
  (forall id, id < next_tensor w -> tensors w' !! id = tensors w !! id) /\
  (forall id t, next_tensor w <= id -> tensors w' !! id = Some t ->
                made_by t = FromPredict /\ id < next_tensor w').

(** What holds of the hooks at every point of the component's life. *)
Definition settled (w : world) : Prop :=
  (loading w = true -> products w = []) /\
  (products w = [] ->
   predicting w = false /\ predictionResults w = [] /\ fit_log w = []).

Section Stages.
Context `{tf : TensorFlow}.
Variable rev : revision.

(** The result pushed for [p] when the model's output for it is [y]. *)
Definition result_of (p : product) (y : number) : result :=
  {| r_name := name p;
     prediction := if js_gt (Num y) lit_half then Reorder else NoReorder;
     r_stock := stock p;
     avgSales := average_weekly_sales p;
     leadTime := lead_time p;
     derived := metric_of rev p |}.

Definition result_for (model : Model) (p : product) : option result :=
  result_of p <$> model_predict_data model [features p].

(** The world in which [model.fit] is called, and the world in which the
    loop starts once it has returned. *)
Definition trainXs_of (w : world) : tensor :=
  {| tid := next_tensor w; made_by := FromTensor2d;
     values := trainingInputs (products w) |}.

Definition trainYs_of (w : world) : tensor :=
  {| tid := S (next_tensor w); made_by := FromTensor2d;
     values := column (trainingOutputs rev (products w)) |}.

Definition fit_call (w : world) : list (list value) * list (list value) * nat :=
  (trainingInputs (products w), column (trainingOutputs rev (products w)), epochs_of rev).

Definition at_fit (w : world) : world :=
  log_fit (fit_call w)
    (with_tensors
       (<[S (next_tensor w) := trainYs_of w]> (<[next_tensor w := trainXs_of w]> (tensors w)))
       (S (S (next_tensor w)))
       (setPredicting true w)).

Definition after_fit (w : world) : world :=
  with_tensors
    (delete (S (next_tensor w)) (delete (next_tensor w) (tensors (at_fit w))))
    (S (S (next_tensor w)))
    (at_fit w).

End Stages.

(** ** Catalogs and libraries of the examples *)

(** Catalog entries of the worked examples. *)
Definition Widget : product :=
  {| name := "Widget"; stock := lit 10; average_weekly_sales := lit 7; lead_time := lit 2 |}.

Definition Gadget : product :=
  {| name := "Gadget"; stock := lit 21; average_weekly_sales := lit 7; lead_time := lit 5 |}.

(** A product nobody buys and of which nothing is left. *)
Definition Shelfwarmer : product :=
  {| name := "Shelfwarmer"; stock := lit 0; average_weekly_sales := lit 0; lead_time := lit 30 |}.

(** A record of which the catalog gives no stock. *)
Definition Unstocked : product :=
  {| name := "Unstocked"; stock := Undefined; average_weekly_sales := lit 7; lead_time := lit 2 |}.

(** Two stand-ins for the numeric library: one whose model scores a record
    0.75 when its stock is at most 10 and 0.25 otherwise, and one whose
    [model.fit] throws. *)
Definition answering : TensorFlow :=
  {| Model := unit;
     model_fit := fun _ _ _ => Some tt;
     model_predict_data := fun _ xs =>
       match xs with
       | [Num s :: _] =>
           Some (if Number.leb s (Number.of_Z 10)
                 then Number.of_scaled 3 (-2) else Number.of_scaled 1 (-2))
       | _ => Some Number.NaN
       end |}.

Definition throwing : TensorFlow :=
  {| Model := unit;
     model_fit := fun _ _ _ => None;
     model_predict_data := fun _ _ => None |}.

(** The component once the fetch has delivered a catalog. *)
Definition loaded (data : list product) : world := fetch_resolved data initial.

(** The smallest positive number, [5e-324]. *)
Definition min_value : number := Number.of_scaled 1 (-1074).

Definition two_products : world := loaded [Widget; Gadget].

(** The run of the reorder-point revision on [Widget] alone when
    [model.fit] throws, and the world it leaves. *)
Definition failed_run : outcome unit * world :=
  handlePredict (tf := throwing) ReorderPoint.rev (loaded [Widget]).

(** ** The table

    What the component returns: a spinner while loading, the error when
    there is one, and otherwise the Predict button over a table with one row
    per object of [predictionResults] when there are any, of [products]
    otherwise. *)

(** An object the table's [map] is given, by the properties a row reads:
    a product as the fetch handler stored it (with the metric it adds under
    [reorder_point] or [days_to_replenish], here [e_metric]) or an object of
    [preds].  A property the object lacks reads as [undefined], and as no
    [prediction]. *)
Record entry : Type := {
  e_name : string;
  e_stock : value;
  e_average_weekly_sales : value;
  e_lead_time : value;
  e_avgSales : value;
  e_leadTime : value;
  e_metric : value;
  e_prediction : option decision
}.

Definition entry_of_product (rev : revision) (p : product) : entry :=
  {| e_name := name p;
     e_stock := stock p;
     e_average_weekly_sales := average_weekly_sales p;
     e_lead_time := lead_time p;
     e_avgSales := Undefined;
     e_leadTime := Undefined;
     e_metric := metric_of rev p;
     e_prediction := None |}.

Definition entry_of_result (r : result) : entry :=
  {| e_name := r_name r;
     e_stock := r_stock r;
     e_average_weekly_sales := Undefined;
     e_lead_time := Undefined;
     e_avgSales := avgSales r;
     e_leadTime := leadTime r;
     e_metric := derived r;
     e_prediction := Some (prediction r) |}.

(** [predictionResults.length > 0 ? predictionResults : products] *)
Definition shown_entries (rev : revision) (w : world) : list entry :=
  if 0 <? length (predictionResults w)
  then map entry_of_result (predictionResults w)
  else map (entry_of_product rev) (products w).

(** What stands between the tags of a cell: an expression's value or text
    of the markup. *)
Inductive child : Type :=
  | Child (v : value)
  | Literal (s : string).

(** A row.  The metric cell is its [className] ([true] for
    ['text-danger fw-bold'], [false] for the empty one) and its children;
    the prediction cell is the prediction in its badge, or [None] for
    ['-']. *)
Record tr : Type := {
  key : string + nat;
  td_name : string;
  td_stock : value;
  td_sales : value;
  td_lead : value;
  td_metric : option (bool * list child);
  td_prediction : option decision
}.

(** The three revisions of the table. *)
Inductive layout : Type := WithReorderPoint | WithDaysToReplenish | Plain.

Definition revision_of (l : layout) : revision :=
  match l with
  | WithReorderPoint => ReorderPoint.rev
  | WithDaysToReplenish => DaysToReplenish.rev
  | Plain => SalesThreshold.rev
  end.

(** The body of the table's [map((p, idx) => ...)]. *)
Definition render_row (l : layout) (idx : nat) (p : entry) : tr :=
  {| key := match e_name p with EmptyString => inr idx | s => inl s end;
     td_name := e_name p;
     td_stock :=
       match l with
       | Plain => js_or (e_stock p) (e_avgSales p)
       | _ => e_stock p
       end;
     td_sales := js_or (e_avgSales p) (e_average_weekly_sales p);
     td_lead := js_or (e_leadTime p) (e_lead_time p);
     td_metric :=
       match l with
       | WithReorderPoint =>
           Some (js_le (e_stock p) (e_metric p), [Child (e_metric p)])
       | WithDaysToReplenish =>
           Some (js_le (e_metric p) (js_or (e_leadTime p) (e_lead_time p)),
                 [if js_strict_eq (e_metric p) (lit 999)
                  then Literal "> 999" else Child (e_metric p);
                  Literal " Days"])
       | Plain => None
       end;
     td_prediction := e_prediction p |}.

Definition table (l : layout) (w : world) : list tr :=
  imap (render_row l) (shown_entries (revision_of l) w).

Inductive view : Type :=
  | Spinner
  | Alert (message : string)
  | Page (disabled : bool) (caption : string) (rows : list tr).

Definition render (l : layout) (w : world) : view :=
  if loading w then Spinner
  else
    match error w with
    | Some (String c s) => Alert (String c s)
    | _ =>
        Page (predicting w)
             (if predicting w then "Predicting..." else "Predict")
             (table l w)
    end.

(** What a session does to the state: the fetch settles, once, and the
    user clicks Predict. *)
Section Session.
Context `{tf : TensorFlow}.
Variable l : layout.

Inductive ui_step : world -> world -> Prop :=
  | ui_resolved w data :
      loading w = true -> ui_step w (fetch_resolved data w)
  | ui_rejected w message :
      loading w = true -> ui_step w (fetch_rejected message w)
  | ui_click w o w' :
      click_Predict (revision_of l) w = (o, w') -> ui_step w w'.

End Session.

(** A field that is finite once defaulted: missing, [null] or a finite
    number. *)
Definition finite_input (v : value) : bool :=
  match v with
  | Undefined | Null => true
  | Num x => Number.is_finite x
  end.

(** Two more catalog entries: one that sells and is out of stock, one with
    no lead time. *)
Definition SoldOut : product :=
  {| name := "SoldOut"; stock := lit 0; average_weekly_sales := lit 7; lead_time := lit 3 |}.

Definition Instant : product :=
  {| name := "Instant"; stock := lit 0; average_weekly_sales := lit 7; lead_time := lit 0 |}.

(** A library whose model is fitted and then throws at the first
    [model.predict]. *)
Definition stalling : TensorFlow :=
  {| Model := unit;
     model_fit := fun _ _ _ => Some tt;
     model_predict_data := fun _ _ => None |}.

(** The world a run of a revision leaves on the catalog of Widget and
    Gadget, and on a catalog of records with a zero among their fields,
    against the library that answers. *)
Definition ran (l : layout) : world :=
  (handlePredict (tf := answering) (revision_of l) two_products).2.

Definition edge_products : world := loaded [Instant; Shelfwarmer; SoldOut].

Definition ran_edge (l : layout) : world :=
  (handlePredict (tf := answering) (revision_of l) edge_products).2.

Local Open Scope Z_scope.

(** * Properties *)

(** ** Numbers and truthiness *)

Lemma eqb_zero_inv (x : number) :
  Number.eqb x (S754_zero false) = true -> exists s, x = S754_zero s.
Proof.
  destruct x as [s | s | | s m e]; cbn; try discriminate.
  - intros _. now exists s.
  - now destruct s.
  - now destruct s.
Qed.

Lemma truthy_Num (x : number) :
  truthy (Num x) = true <->
  Number.eqb x (S754_zero false) = false /\ Number.is_nan x = false.
Proof.
  cbn [truthy]. rewrite negb_true_iff, orb_false_iff. tauto.
Qed.

(** [v || 0] is [v] when [v] is truthy and the literal [0] otherwise. *)
Lemma js_or_truthy (v d : value) : truthy v = true -> js_or v d = v.
Proof. unfold js_or. now intros ->. Qed.

Lemma js_or_falsy (v d : value) : truthy v = false -> js_or v d = d.
Proof. unfold js_or. now intros ->. Qed.

(** A falsy field is absent, [null], a zero or NaN. *)
Lemma falsy_inv (v : value) :
  truthy v = false ->
  v = Undefined \/ v = Null \/ (exists s, v = Num (S754_zero s)) \/ v = Num Number.NaN.
Proof.
  destruct v as [| | x]; auto.
  cbn [truthy]. rewrite negb_false_iff, orb_true_iff. intros [Hz | Hn].
  - right. right. left. destruct (eqb_zero_inv x Hz) as [s ->]. now exists s.
  - right. right. right. destruct x; try discriminate. reflexivity.
Qed.

Lemma falsy_iff (v : value) :
  truthy v = false <->
  v = Undefined \/ v = Null \/ (exists s, v = Num (S754_zero s)) \/ v = Num Number.NaN.
Proof.
  split; [apply falsy_inv |].
  intros [-> | [-> | [[s ->] | ->]]]; try destruct s; reflexivity.
Qed.

(** A truthy number is not [=== 0]. *)
Lemma truthy_not_strict_zero (v : value) :
  truthy v = true -> js_strict_eq v (lit 0) = false.
Proof.
  destruct v as [| | x]; try discriminate.
  intros [Hz _]%truthy_Num. exact Hz.
Qed.

(** The literals and inputs of the examples are binary64 values. *)
Example examples_are_valid :
  forallb Number.valid
    [Number.of_Z 0; Number.of_Z 7; Number.of_Z 999; Number.of_Z (-1); Number.of_Z (-7);
     Number.of_scaled 1 (-1); min_value] = true.
Proof. vm_compute. reflexivity. Qed.

(** [Math.floor] at 2.5, -2.5, 0.5, -0.5, -0, an integer and NaN. *)
Example Math_floor_examples :
  Math_floor (Num (Number.of_scaled 5 (-1))) = lit 2 /\
  Math_floor (Num (Number.of_scaled (-5) (-1))) = lit (-3) /\
  Math_floor (Num (Number.of_scaled 1 (-1))) = lit 0 /\
  Math_floor (Num (Number.of_scaled (-1) (-1))) = lit (-1) /\
  Math_floor (Num (S754_zero true)) = Num (S754_zero true) /\
  Math_floor (lit 21) = lit 21 /\
  Math_floor (Num Number.NaN) = Num Number.NaN.
Proof. vm_compute. repeat split. Qed.

(** The quotient is the rounded one of binary64 arithmetic: [9 / 7] is
    rounded up, so [9 / (9 / 7)] is a little below 7 and its floor is 6. *)
Example days_of_nine_a_week :
  js_le (lit 7) (js_div (lit 9) (js_div (lit 9) (lit 7))) = false /\
  DaysToReplenish.calculateDaysToReplenish (lit 9) (lit 9) = lit 6.
Proof. vm_compute. split; reflexivity. Qed.

(** ** The reorder point and its label *)

Section Labels.

Lemma trainingOutputs_lookup (rev : revision) (ps : list product) (i : nat) :
  trainingOutputs rev ps !! i = label_of rev <$> ps !! i.
Proof. unfold trainingOutputs. apply list_lookup_fmap. Qed.

(** C1.  In the reorder-point revision the metric of a record is
    [(average_weekly_sales || 0) * (lead_time || 0)], and the entry of
    [trainingOutputs] for the record is 1 when [stock <= metric] and 0
    otherwise. *)
Theorem reorder_point_metric_and_label (ps : list product) (i : nat) (p : product) :
  ps !! i = Some p ->
  ReorderPoint.metric p =
    js_mul (js_or (average_weekly_sales p) (lit 0)) (js_or (lead_time p) (lit 0))
  /\ trainingOutputs ReorderPoint.rev ps !! i =
       Some (if js_le (stock p) (ReorderPoint.metric p) then lit 1 else lit 0).
Proof.
  intros Hp. split; [reflexivity |].
  rewrite trainingOutputs_lookup, Hp. reflexivity.
Qed.

End Labels.

(** The reorder point and the label of Widget, in the catalog that holds it
    alone. *)
Lemma reorder_point_witness :
  [Widget] !! 0%nat = Some Widget /\
  (ReorderPoint.metric Widget =
     js_mul (js_or (average_weekly_sales Widget) (lit 0)) (js_or (lead_time Widget) (lit 0))
   /\ trainingOutputs ReorderPoint.rev [Widget] !! 0%nat =
        Some (if js_le (stock Widget) (ReorderPoint.metric Widget) then lit 1 else lit 0)).
Proof.
  split; [reflexivity | apply (reorder_point_metric_and_label [Widget] 0 Widget); reflexivity].
Defined.

(** The reorder-point example of the specification: metric 14, label 1,
    feature row [[10, 7, 2]]. *)
Example Widget_reorder_point :
  ReorderPoint.metric Widget = lit 14 /\
  ReorderPoint.label Widget = lit 1 /\
  features Widget = [lit 10; lit 7; lit 2].
Proof. vm_compute. repeat split. Qed.

(** ** Days to replenish and its label *)

Section Days.
Import DaysToReplenish.

Lemma calculateDaysToReplenish_sales (st sales : value) :
  truthy sales = true ->
  calculateDaysToReplenish st sales =
    Math_floor (js_div (js_or st (lit 0)) (js_div sales (lit 7))).
Proof.
  intros Hs. unfold calculateDaysToReplenish.
  rewrite (js_or_truthy sales _ Hs), (truthy_not_strict_zero sales Hs).
  reflexivity.
Qed.

Lemma calculateDaysToReplenish_no_sales (st sales : value) :
  truthy sales = false -> calculateDaysToReplenish st sales = lit 999.
Proof.
  intros Hs. unfold calculateDaysToReplenish.
  rewrite (js_or_falsy sales _ Hs). reflexivity.
Qed.

(** C2.  In the days-to-replenish revision the metric of a record whose
    [average_weekly_sales] is a nonzero number (a truthy field) is
    [Math.floor((stock || 0) / (average_weekly_sales / 7))]; when the field
    is zero or missing (a falsy field: absent, [null], [0], [-0], or NaN,
    which no catalog holds) the metric is 999. *)
Theorem days_to_replenish_metric (p : product) :
  metric p =
    (if truthy (average_weekly_sales p)
     then Math_floor (js_div (js_or (stock p) (lit 0))
                             (js_div (average_weekly_sales p) (lit 7)))
     else lit 999)
  /\ (truthy (average_weekly_sales p) = false <->
      average_weekly_sales p = Undefined \/ average_weekly_sales p = Null \/
      (exists s, average_weekly_sales p = Num (S754_zero s)) \/
      average_weekly_sales p = Num Number.NaN).
Proof.
  split; [| apply falsy_iff].
  unfold metric. destruct (truthy (average_weekly_sales p)) eqn:Hs.
  - now apply calculateDaysToReplenish_sales.
  - now apply calculateDaysToReplenish_no_sales.
Qed.

(** Defaulting a field that is there changes no comparison with it:
    [d <= (lt || 0)] is [d <= lt] unless [lt] is missing (or NaN, which no
    catalog holds). *)
Lemma le_defaulted (d lt : value) :
  lt <> Undefined -> lt <> Num Number.NaN ->
  js_le d (js_or lt (lit 0)) = js_le d lt.
Proof.
  intros Hu Hn. unfold js_or. destruct (truthy lt) eqn:Hlt; [reflexivity |].
  destruct (falsy_inv lt Hlt) as [-> | [-> | [[s ->] | ->]]]; try congruence.
  - reflexivity.
  - unfold js_le. cbn [to_number lit].
    destruct (to_number d) as [sd | sd | | sd md ed]; reflexivity.
Qed.

(** C3.  In the days-to-replenish revision the entry of [trainingOutputs]
    for a record is 1 when the metric is [<= lead_time] and 0 otherwise,
    [lead_time] being the field defaulted to 0, which for a field that is
    there is the comparison with the field itself; for Gadget the metric is
    21 and the label 0. *)
Theorem days_to_replenish_label (ps : list product) (i : nat) (p : product) :
  ps !! i = Some p ->
  trainingOutputs rev ps !! i =
    Some (if js_le (metric p) (js_or (lead_time p) (lit 0)) then lit 1 else lit 0)
  /\ (lead_time p <> Undefined -> lead_time p <> Num Number.NaN ->
      trainingOutputs rev ps !! i =
        Some (if js_le (metric p) (lead_time p) then lit 1 else lit 0))
  /\ metric Gadget = lit 21
  /\ trainingOutputs rev [Gadget] = [lit 0].
Proof.
  intros Hp.
  assert (Hi : trainingOutputs rev ps !! i =
                 Some (if js_le (metric p) (js_or (lead_time p) (lit 0))
                       then lit 1 else lit 0)).
  { rewrite trainingOutputs_lookup, Hp. reflexivity. }
  split; [exact Hi | split; [| split]].
  - intros Hu Hn. rewrite Hi, (le_defaulted _ _ Hu Hn). reflexivity.
  - vm_compute. reflexivity.
  - vm_compute. reflexivity.
Qed.

(** [999 <= (lead_time || 0)] is [999 <= lead_time]: a falsy [lead_time]
    is below 999 either way. *)
Lemma sentinel_le_defaulted (lt : value) :
  js_le (lit 999) (js_or lt (lit 0)) = js_le (lit 999) lt.
Proof.
  unfold js_or. destruct (truthy lt) eqn:Hlt; [reflexivity |].
  destruct (falsy_inv lt Hlt) as [-> | [-> | [[s ->] | ->]]];
    try destruct s; vm_compute; reflexivity.
Qed.

(** C10.  In the days-to-replenish revision a record whose
    [average_weekly_sales] is zero or missing has metric 999, and its label
    is 1 exactly when [lead_time >= 999], whatever its stock. *)
Theorem zero_sales_label (p : product) :
  truthy (average_weekly_sales p) = false ->
  metric p = lit 999 /\
  label p = (if js_le (lit 999) (lead_time p) then lit 1 else lit 0) /\
  forall q : product,
    lead_time q = lead_time p -> truthy (average_weekly_sales q) = false ->
    label q = label p.
Proof.
  intros Hs.
  assert (Hlabel : forall r : product,
             truthy (average_weekly_sales r) = false ->
             label r = if js_le (lit 999) (lead_time r) then lit 1 else lit 0).
  { intros r Hr. unfold label.
    rewrite (calculateDaysToReplenish_no_sales _ _ Hr), sentinel_le_defaulted.
    reflexivity. }
  split; [| split].
  - now apply calculateDaysToReplenish_no_sales.
  - now apply Hlabel.
  - intros q Hq Hsq. rewrite (Hlabel q Hsq), (Hlabel p Hs), Hq. reflexivity.
Qed.

End Days.

(** The label of Gadget, in the catalog that holds it alone. *)
Lemma days_to_replenish_label_witness :
  [Gadget] !! 0%nat = Some Gadget /\
  (trainingOutputs DaysToReplenish.rev [Gadget] !! 0%nat =
     Some (if js_le (DaysToReplenish.metric Gadget) (js_or (lead_time Gadget) (lit 0))
           then lit 1 else lit 0)
   /\ (lead_time Gadget <> Undefined -> lead_time Gadget <> Num Number.NaN ->
       trainingOutputs DaysToReplenish.rev [Gadget] !! 0%nat =
         Some (if js_le (DaysToReplenish.metric Gadget) (lead_time Gadget)
               then lit 1 else lit 0))
   /\ DaysToReplenish.metric Gadget = lit 21
   /\ trainingOutputs DaysToReplenish.rev [Gadget] = [lit 0]).
Proof.
  split; [reflexivity | apply (days_to_replenish_label [Gadget] 0 Gadget); reflexivity].
Defined.

(** Shelfwarmer: no sales, no stock, thirty days of lead time, and the
    label is 0. *)
Lemma zero_sales_label_witness :
  truthy (average_weekly_sales Shelfwarmer) = false /\
  DaysToReplenish.metric Shelfwarmer = lit 999 /\
  DaysToReplenish.label Shelfwarmer = lit 0.
Proof.
  split; [reflexivity |].
  destruct (zero_sales_label Shelfwarmer eq_refl) as (Hm & Hl & _).
  split; [exact Hm | rewrite Hl; reflexivity].
Defined.

(** ** Runs of [handlePredict] *)

Local Open Scope nat_scope.

Section RunFacts.
Context `{tf : TensorFlow}.
Variable rev : revision.

Lemma hooks_kept_refl w : hooks_kept w w.
Proof. repeat split. Qed.

Lemma hooks_kept_trans w1 w2 w3 :
  hooks_kept w1 w2 -> hooks_kept w2 w3 -> hooks_kept w1 w3.
Proof.
  intros (?&?&?&?&?&?) (?&?&?&?&?&?). repeat split; congruence.
Qed.

Lemma only_outputs_added_refl w : fresh_above w -> only_outputs_added w w.
Proof.
  intros Hw. split; [lia | split; [reflexivity |]].
  intros id t Hid Ht. rewrite (Hw id Hid) in Ht. discriminate.
Qed.

Lemma only_outputs_added_trans w1 w2 w3 :
  only_outputs_added w1 w2 -> only_outputs_added w2 w3 -> only_outputs_added w1 w3.
Proof.
  intros (Hn1 & Hold1 & Hnew1) (Hn2 & Hold2 & Hnew2).
  split; [lia | split].
  - intros id Hid. rewrite Hold2 by lia. now apply Hold1.
  - intros id t Hid Ht.
    destruct (decide (id < next_tensor w2)) as [Hlt | Hge].
    + rewrite Hold2 in Ht by exact Hlt.
      destruct (Hnew1 id t Hid Ht) as [Ho _]. split; [exact Ho | lia].
    + apply Hnew2; [lia | exact Ht].
Qed.

Lemma only_outputs_added_fresh w w' :
  only_outputs_added w w' -> fresh_above w'.
Proof.
  intros (Hn & _ & Hnew) id Hid.
  destruct (tensors w' !! id) as [t |] eqn:Ht; [| reflexivity].
  destruct (Hnew id t ltac:(lia) Ht) as [_ Hlt]. lia.
Qed.

(** One pass of the loop body, spelled out. *)
Lemma predict_one_unfold (model : Model) (p : product) (w : world) :
  predict_one rev model p w =
    let n := next_tensor w in
    let inp := {| tid := n; made_by := FromTensor2d; values := [features p] |} in
    match model_predict_data model [features p] with
    | Some y =>
        let out := {| tid := S n; made_by := FromPredict; values := [[Num y]] |} in
        (Returned (result_of rev p y),
         with_tensors (delete n (<[S n := out]> (<[n := inp]> (tensors w)))) (S (S n)) w)
    | None => (Thrown, with_tensors (<[n := inp]> (tensors w)) (S n) w)
    end.
Proof.
  unfold predict_one, mbind, M_bind, tensor2d, predict_data0, dispose, modify, mret, M_ret.
  cbn. destruct (model_predict_data model [features p]); reflexivity.
Qed.

Lemma predict_one_hooks (model : Model) (p : product) (w : world) :
  hooks_kept w (predict_one rev model p w).2.
Proof.
  rewrite predict_one_unfold. cbn zeta.
  destruct (model_predict_data model [features p]); repeat split.
Qed.

Lemma predict_one_tensors (model : Model) (p : product) (w : world) r w' :
  fresh_above w ->
  predict_one rev model p w = (Returned r, w') ->
  only_outputs_added w w'.
Proof.
  intros Hw. rewrite predict_one_unfold. cbn zeta.
  destruct (model_predict_data model [features p]) as [y |]; [| discriminate].
  intros [= _ <-]. unfold only_outputs_added.
  cbn [with_tensors next_tensor tensors]. split; [lia | split].
  - intros id Hid.
    rewrite lookup_delete_ne, !lookup_insert_ne by lia. reflexivity.
  - intros id t Hid.
    destruct (decide (id = next_tensor w)) as [-> | Hne].
    { rewrite lookup_delete_eq. discriminate. }
    rewrite lookup_delete_ne by lia.
    destruct (decide (id = S (next_tensor w))) as [-> | Hne'].
    { rewrite lookup_insert_eq. intros [= <-]. split; [reflexivity | lia]. }
    rewrite !lookup_insert_ne by lia.
    rewrite (Hw id Hid). discriminate.
Qed.

Lemma predict_loop_hooks (model : Model) (ps : list product) :
  forall preds w, hooks_kept w (predict_loop rev model ps preds w).2.
Proof.
  induction ps as [| p rest IH]; intros preds w; cbn [predict_loop].
  - apply hooks_kept_refl.
  - unfold mbind, M_bind.
    pose proof (predict_one_hooks model p w) as Hone.
    destruct (predict_one rev model p w) as [[r |] w1]; cbn in Hone |- *.
    + eapply hooks_kept_trans; [exact Hone | apply IH].
    + exact Hone.
Qed.

Lemma predict_loop_tensors (model : Model) (ps : list product) :
  forall preds w rs w',
    fresh_above w ->
    predict_loop rev model ps preds w = (Returned rs, w') ->
    only_outputs_added w w'.
Proof.
  induction ps as [| p rest IH]; intros preds w rs w' Hw; cbn [predict_loop].
  - intros [= _ <-]. now apply only_outputs_added_refl.
  - unfold mbind at 1, M_bind at 1.
    destruct (predict_one rev model p w) as [[r |] w1] eqn:Hone; [| discriminate].
    intros Hloop.
    pose proof (predict_one_tensors model p w r w1 Hw Hone) as Hadd.
    eapply only_outputs_added_trans; [exact Hadd |].
    eapply IH; [| exact Hloop]. eapply only_outputs_added_fresh, Hadd.
Qed.

(** When the model answers for every record, the loop returns and has
    pushed one result per record, in order. *)
Lemma predict_loop_returns (model : Model) (ps : list product) :
  forall (rs preds : list result) (w : world),
    mapM (result_for rev model) ps = Some rs ->
    exists w', predict_loop rev model ps preds w = (Returned (preds ++ rs), w').
Proof.
  induction ps as [| p rest IH]; intros rs preds w Hrs.
  - cbn in Hrs. injection Hrs as <-. exists w. now rewrite app_nil_r.
  - cbn in Hrs.
    destruct (result_for rev model p) as [r |] eqn:Hr; [| discriminate].
    cbn in Hrs.
    destruct (mapM (result_for rev model) rest) as [rs' |] eqn:Hrest; [| discriminate].
    cbn in Hrs. injection Hrs as <-.
    cbn [predict_loop]. unfold mbind at 1, M_bind at 1.
    rewrite predict_one_unfold. cbn zeta.
    unfold result_for in Hr.
    destruct (model_predict_data model [features p]) as [y |]; [| discriminate].
    cbn in Hr. injection Hr as <-.
    match goal with |- context [predict_loop _ _ _ _ ?w1] =>
      destruct (IH rs' (preds ++ [result_of rev p y]) w1 eq_refl) as (w' & Hloop)
    end.
    exists w'. rewrite Hloop. now rewrite <- app_assoc.
Qed.

Lemma handlePredict_empty (w : world) :
  products w = [] -> handlePredict rev w = (Returned tt, w).
Proof. unfold handlePredict. now intros ->. Qed.

Lemma handlePredict_unfold (w : world) :
  products w <> [] ->
  handlePredict rev w =
    match model_fit (trainingInputs (products w))
                    (column (trainingOutputs rev (products w))) (epochs_of rev) with
    | None => (Thrown, at_fit rev w)
    | Some model =>
        match predict_loop rev model (products w) [] (after_fit rev w) with
        | (Returned preds, w') =>
            (Returned tt, setPredicting false (setPredictionResults preds w'))
        | (Thrown, w') => (Thrown, w')
        end
    end.
Proof.
  intros Hps. unfold handlePredict.
  destruct (products w) as [| p ps] eqn:Hprod; [congruence |].
  cbn [length Nat.eqb].
  unfold mbind, M_bind, modify, tensor2d, fit, dispose, modify, mret, M_ret.
  cbn [setPredicting products next_tensor tensors with_tensors values tid].
  rewrite <- Hprod.
  destruct (model_fit (trainingInputs (products w))
              (column (trainingOutputs rev (products w))) (epochs_of rev)) as [model |] eqn:Hfit.
  - unfold after_fit, at_fit, fit_call, trainXs_of, trainYs_of, setPredicting, log_fit, with_tensors.
    cbn [products predictionResults loading predicting error tensors next_tensor fit_log].
    destruct (predict_loop rev model _ [] _) as [[preds |] w']; reflexivity.
  - reflexivity.
Qed.

Lemma after_fit_hooks (w : world) :
  products (after_fit rev w) = products w /\
  predictionResults (after_fit rev w) = predictionResults w /\
  loading (after_fit rev w) = loading w /\
  predicting (after_fit rev w) = true /\
  error (after_fit rev w) = error w /\
  fit_log (after_fit rev w) = fit_log w ++ [fit_call rev w].
Proof. repeat split. Qed.

Lemma after_fit_tensors (w : world) :
  fresh_above w -> only_outputs_added w (after_fit rev w).
Proof.
  intros Hw. unfold only_outputs_added, after_fit, at_fit.
  cbn [with_tensors log_fit next_tensor tensors setPredicting].
  split; [lia | split].
  - intros id Hid. rewrite !lookup_delete_ne, !lookup_insert_ne by lia. reflexivity.
  - intros id t Hid.
    destruct (decide (id = S (next_tensor w))) as [-> | Hne].
    { rewrite lookup_delete_eq. discriminate. }
    rewrite lookup_delete_ne by lia.
    destruct (decide (id = next_tensor w)) as [-> | Hne'].
    { rewrite lookup_delete_eq. discriminate. }
    rewrite lookup_delete_ne, !lookup_insert_ne by lia.
    rewrite (Hw id Hid). discriminate.
Qed.

(** What every run on a catalog that is not empty does, however it ends:
    it calls [model.fit] once, on the dataset built from the catalog, and
    [predicting] is [false] afterwards exactly when the run returned. *)
Lemma handlePredict_outcome (w : world) (o : outcome unit) (w' : world) :
  products w <> [] ->
  handlePredict rev w = (o, w') ->
  products w' = products w /\
  loading w' = loading w /\
  error w' = error w /\
  fit_log w' = fit_log w ++ [fit_call rev w] /\
  predicting w' = (match o with Returned _ => false | Thrown => true end).
Proof.
  intros Hps. rewrite (handlePredict_unfold w Hps).
  destruct (model_fit _ _ _) as [model |].
  - pose proof (predict_loop_hooks model (products w) [] (after_fit rev w)) as Hk.
    destruct (predict_loop rev model (products w) [] (after_fit rev w)) as [[preds |] w1].
    + destruct Hk as (Hp & _ & Hl & _ & He & Hf). cbn in Hp, Hl, He, Hf.
      intros [= <- <-]. cbn. repeat split; assumption.
    + destruct Hk as (Hp & _ & Hl & Hg & He & Hf). cbn in Hp, Hl, Hg, He, Hf.
      intros [= <- <-]. repeat split; assumption.
  - intros [= <- <-]. repeat split.
Qed.

(** A run in which [model.fit] returns and the model answers for every
    record returns, with the results of the loop in [predictionResults]. *)
Lemma handlePredict_returns (w : world) (model : Model) (rs : list result) :
  products w <> [] ->
  model_fit (trainingInputs (products w))
            (column (trainingOutputs rev (products w))) (epochs_of rev) = Some model ->
  mapM (result_for rev model) (products w) = Some rs ->
  exists w',
    handlePredict rev w = (Returned tt, w') /\
    predictionResults w' = rs /\
    (fresh_above w -> only_outputs_added w w').
Proof.
  intros Hps Hfit Hrs. rewrite (handlePredict_unfold w Hps), Hfit.
  destruct (predict_loop_returns model (products w) rs [] (after_fit rev w) Hrs)
    as (w1 & Hloop).
  rewrite Hloop. eexists. split; [reflexivity | split; [reflexivity |]].
  intros Hw.
  pose proof (after_fit_tensors w Hw) as Hadd.
  pose proof (predict_loop_tensors model (products w) [] (after_fit rev w) _ w1
                (only_outputs_added_fresh _ _ Hadd) Hloop) as Hadd'.
  destruct (only_outputs_added_trans _ _ _ Hadd Hadd') as (Hn & Hold & Hnew).
  split; [exact Hn | split; [exact Hold | exact Hnew]].
Qed.

End RunFacts.

(** ** The dataset, the results and the state of a run *)

Section Claims.
Context `{tf : TensorFlow}.
Variable rev : revision.

(** C4.  A run on a catalog of N records hands [model.fit] a feature
    matrix of N rows and a label column of N rows, both in catalog order;
    row i is [[stock, average_weekly_sales || 0, lead_time || 0]], with
    [stock] as the record has it. *)
Theorem dataset_of_run (w : world) (o : outcome unit) (w' : world) :
  products w <> [] ->
  handlePredict rev w = (o, w') ->
  exists X Y,
    fit_log w' = fit_log w ++ [(X, Y, epochs_of rev)] /\
    length X = length (products w) /\
    length Y = length (products w) /\
    forall i p, products w !! i = Some p ->
      X !! i = Some [stock p;
                     js_or (average_weekly_sales p) (lit 0);
                     js_or (lead_time p) (lit 0)] /\
      Y !! i = Some [label_of rev p].
Proof.
  intros Hps Hrun.
  destruct (handlePredict_outcome rev w o w' Hps Hrun) as (_ & _ & _ & Hlog & _).
  exists (trainingInputs (products w)), (column (trainingOutputs rev (products w))).
  split; [exact Hlog |].
  unfold column, trainingInputs, trainingOutputs.
  rewrite !length_map. split; [reflexivity | split; [reflexivity |]].
  intros i p Hp. rewrite !list_lookup_fmap, Hp. split; reflexivity.
Qed.

(** C5.  When [model.fit] returns a model that answers for every record
    of a non-empty catalog, the run returns with one result per record in
    [predictionResults], in catalog order, and the result of a record says
    Reorder when the model's output for its feature row is [> 0.5] and
    No Reorder otherwise. *)
Theorem results_follow_catalog (w : world) (model : Model) :
  products w <> [] ->
  model_fit (trainingInputs (products w))
            (column (trainingOutputs rev (products w))) (epochs_of rev) = Some model ->
  Forall (fun p => is_Some (model_predict_data model [features p])) (products w) ->
  exists w',
    handlePredict rev w = (Returned tt, w') /\
    length (predictionResults w') = length (products w) /\
    forall i p, products w !! i = Some p ->
      exists y,
        model_predict_data model [features p] = Some y /\
        predictionResults w' !! i =
          Some {| r_name := name p;
                  prediction := if js_gt (Num y) lit_half then Reorder else NoReorder;
                  r_stock := stock p;
                  avgSales := average_weekly_sales p;
                  leadTime := lead_time p;
                  derived := metric_of rev p |}.
Proof.
  intros Hps Hfit Hall.
  assert (Hsome : is_Some (mapM (result_for rev model) (products w))).
  { apply mapM_is_Some. eapply Forall_impl; [exact Hall |].
    intros p [y Hy]. unfold result_for. cbn. rewrite Hy. cbn. eauto. }
  destruct Hsome as [rs Hrs].
  destruct (handlePredict_returns rev w model rs Hps Hfit Hrs) as (w' & Hrun & Hres & _).
  exists w'. split; [exact Hrun |].
  apply mapM_Some in Hrs. rewrite Hres.
  split; [symmetry; eapply Forall2_length, Hrs |].
  intros i p Hp.
  destruct (Forall2_lookup_l _ _ _ _ _ Hrs Hp) as (r & Hr & Hpr).
  unfold result_for in Hpr.
  destruct (model_predict_data model [features p]) as [y |]; [| discriminate].
  cbn in Hpr. injection Hpr as <-. exists y. split; [reflexivity | exact Hr].
Qed.

End Claims.

Section Protocol.
Context `{tf : TensorFlow}.
Variable rev : revision.

Lemma settled_initial : settled initial.
Proof. split; intros _; repeat split. Qed.

Lemma settled_step (w w' : world) : settled w -> step rev w w' -> settled w'.
Proof.
  intros [Hload Hempty] Hstep.
  destruct Hstep as [w data Hl | w msg Hl | w o w' Hrun].
  - destruct (Hempty (Hload Hl)) as (Hp & Hr & Hf).
    split; [discriminate |]. intros _. repeat split; assumption.
  - split; [discriminate |]. exact Hempty.
  - destruct (decide (products w = [])) as [Hps | Hne].
    + rewrite (handlePredict_empty rev w Hps) in Hrun.
      injection Hrun as _ <-. split; assumption.
    + destruct (handlePredict_outcome rev w o w' Hne Hrun) as (Hp & Hl & _).
      split.
      * intros Hl'. rewrite Hl in Hl'. destruct (Hne (Hload Hl')).
      * intros Hp'. rewrite Hp in Hp'. destruct (Hne Hp').
Qed.

Lemma reachable_settled (w : world) : reachable rev w -> settled w.
Proof.
  unfold reachable. revert w.
  apply (rtc_ind_r settled initial settled_initial).
  intros y z _ Hstep Hy. exact (settled_step y z Hy Hstep).
Qed.

(** C6.  On an empty catalog [handlePredict] returns at once and changes
    nothing: [model.fit] has not been called, [predicting] is [false] and
    [predictionResults] is empty, before the call and after it. *)
Theorem empty_catalog_is_a_no_op (w : world) :
  reachable rev w ->
  products w = [] ->
  handlePredict rev w = (Returned tt, w) /\
  predicting w = false /\
  predictionResults w = [] /\
  fit_log w = [].
Proof.
  intros Hr Hps. split; [now apply handlePredict_empty |].
  destruct (reachable_settled w Hr) as [_ Hempty]. now apply Hempty.
Qed.

Lemma click_Predict_disabled (w : world) :
  predicting w = true -> click_Predict rev w = (Returned tt, w).
Proof.
  intros Hp. unfold click_Predict. rewrite Hp, orb_true_r. reflexivity.
Qed.

Lemma handlePredict_ignores_predicting (w : world) (b : bool) :
  products w <> [] ->
  handlePredict rev (setPredicting b w) = handlePredict rev w.
Proof.
  intros Hps.
  rewrite (handlePredict_unfold rev w Hps).
  rewrite (handlePredict_unfold rev (setPredicting b w)) by exact Hps.
  reflexivity.
Qed.

(** C8.  [handlePredict] does nothing on an empty catalog.  A start while
    [predicting] is [true] is refused by the Predict button, which is
    disabled then; [handlePredict] itself does not read the flag: called on
    a catalog that is not empty it runs the same whatever the flag says,
    calling [model.fit].  After a run on such a catalog [predicting] is
    [false] exactly when the run returned; it is [true] when [model.fit] or
    an inference threw. *)
Theorem run_state_protocol (w : world) :
  (products w = [] -> handlePredict rev w = (Returned tt, w)) /\
  (predicting w = true -> click_Predict rev w = (Returned tt, w)) /\
  (products w <> [] ->
   (forall b, handlePredict rev (setPredicting b w) = handlePredict rev w) /\
   forall o w', handlePredict rev w = (o, w') ->
     fit_log w' = fit_log w ++ [fit_call rev w] /\
     predicting w' = (match o with Returned _ => false | Thrown => true end)).
Proof.
  split; [apply handlePredict_empty | split; [apply click_Predict_disabled |]].
  intros Hps. split.
  - intros b. now apply handlePredict_ignores_predicting.
  - intros o w' Hrun.
    destruct (handlePredict_outcome rev w o w' Hps Hrun) as (_ & _ & _ & Hlog & Hp).
    split; assumption.
Qed.

(** C9.  In a run in which [model.fit] returns and the model answers for
    every record, every tensor the run makes with [tf.tensor2d] (the two
    training tensors and the input tensor of each inference) is disposed:
    the tensors of that kind allocated after the run are those allocated
    before it.  When [model.fit] throws, the two training tensors stay
    allocated. *)
Theorem tensor2d_buffers_of_a_run (w : world) :
  fresh_above w ->
  products w <> [] ->
  (forall model,
     model_fit (trainingInputs (products w))
               (column (trainingOutputs rev (products w))) (epochs_of rev) = Some model ->
     Forall (fun p => is_Some (model_predict_data model [features p])) (products w) ->
     exists w',
       handlePredict rev w = (Returned tt, w') /\
       forall id t, made_by t = FromTensor2d ->
         (tensors w' !! id = Some t <-> tensors w !! id = Some t)) /\
  (model_fit (trainingInputs (products w))
             (column (trainingOutputs rev (products w))) (epochs_of rev) = None ->
   exists w',
     handlePredict rev w = (Thrown, w') /\
     tensors w' !! next_tensor w = Some (trainXs_of w) /\
     tensors w' !! S (next_tensor w) = Some (trainYs_of rev w)).
Proof.
  intros Hw Hps. split.
  - intros model Hfit Hall.
    assert (Hsome : is_Some (mapM (result_for rev model) (products w))).
    { apply mapM_is_Some. eapply Forall_impl; [exact Hall |].
      intros p [y Hy]. unfold result_for. cbn. rewrite Hy. cbn. eauto. }
    destruct Hsome as [rs Hrs].
    destruct (handlePredict_returns rev w model rs Hps Hfit Hrs) as (w' & Hrun & _ & Hadd).
    destruct (Hadd Hw) as (_ & Hold & Hnew).
    exists w'. split; [exact Hrun |].
    intros id t Ht.
    destruct (decide (id < next_tensor w)) as [Hlt | Hge].
    + rewrite (Hold id Hlt). reflexivity.
    + split.
      * intros Hin. destruct (Hnew id t ltac:(lia) Hin) as [Ho _]. congruence.
      * intros Hin. rewrite (Hw id) in Hin by lia. discriminate.
  - intros Hfit. rewrite (handlePredict_unfold rev w Hps), Hfit.
    exists (at_fit rev w). split; [reflexivity |].
    unfold at_fit. cbn [log_fit with_tensors tensors]. split.
    + rewrite lookup_insert_ne by lia. apply lookup_insert_eq.
    + apply lookup_insert_eq.
Qed.

End Protocol.

(** ** Sign of the metrics *)

Local Open Scope Z_scope.

Lemma leb_zero (x : number) : Number.leb (S754_zero false) x = nonneg x.
Proof. destruct x as [s | s | | s m e]; try destruct s; reflexivity. Qed.

Lemma unsigned_nonneg (x : number) : unsigned x = true -> nonneg x = true.
Proof. destruct x as [s | s | | s m e]; try destruct s; auto. Qed.

Section Rounding.

Lemma iter_pos_invariant {A : Type} (P : A -> Prop) (f : A -> A) :
  (forall x, P x -> P (f x)) -> forall p x, P x -> P (SpecFloat.iter_pos f p x).
Proof.
  intros Hf. induction p as [p IH | p IH |]; intros x Hx; cbn.
  - apply IH, IH, Hf, Hx.
  - apply IH, IH, Hx.
  - apply Hf, Hx.
Qed.

Lemma shr_1_nonneg (mrs : shr_record) : 0 <= shr_m mrs -> 0 <= shr_m (shr_1 mrs).
Proof.
  destruct mrs as [m r s]. cbn.
  destruct m as [| p | p]; [| destruct p | ]; cbn; lia.
Qed.

Lemma shr_nonneg (mrs : shr_record) (e n : Z) :
  0 <= shr_m mrs -> 0 <= shr_m (fst (shr mrs e n)).
Proof.
  intros Hm. unfold shr. destruct n as [| p | p]; cbn; try exact Hm.
  apply (iter_pos_invariant (fun r => 0 <= shr_m r)); [exact shr_1_nonneg | exact Hm].
Qed.

Lemma shr_fexp_nonneg (m e : Z) (l : location) :
  0 <= m -> 0 <= shr_m (fst (shr_fexp Number.prec Number.emax m e l)).
Proof.
  intros Hm. unfold shr_fexp. apply shr_nonneg.
  destruct l as [| []]; exact Hm.
Qed.

Lemma round_nearest_even_nonneg (m : Z) (l : location) :
  0 <= m -> 0 <= round_nearest_even m l.
Proof.
  intros Hm. destruct l as [| []]; cbn; try destruct (Z.even m); lia.
Qed.

(** Rounding a magnitude that is not negative, with the sign bit clear,
    gives [+0], a positive number or [+Infinity]. *)
Lemma binary_round_aux_unsigned (m e : Z) (l : location) :
  0 <= m -> unsigned (binary_round_aux Number.prec Number.emax false m e l) = true.
Proof.
  intros Hm. unfold binary_round_aux.
  pose proof (shr_fexp_nonneg m e l Hm) as H1.
  destruct (shr_fexp Number.prec Number.emax m e l) as [mrs' e'].
  pose proof (shr_fexp_nonneg _ e' loc_Exact
                (round_nearest_even_nonneg _ (loc_of_shr_record mrs') H1)) as H2.
  destruct (shr_fexp Number.prec Number.emax _ e' loc_Exact) as [mrs'' e''].
  cbn in H2. destruct (shr_m mrs'') as [| p | p]; [reflexivity | | lia].
  destruct (e'' <=? Number.emax - Number.prec); reflexivity.
Qed.

Lemma binary_normalize_unsigned (z e : Z) :
  0 <= z ->
  unsigned (binary_normalize Number.prec Number.emax z e false) = true.
Proof.
  intros Hz. destruct z as [| p | p]; [reflexivity | | lia].
  cbn [binary_normalize]. unfold binary_round.
  destruct (shl_align p e _) as [mz ez].
  apply binary_round_aux_unsigned. lia.
Qed.

Lemma mul_nonneg (x y : number) :
  Number.is_finite x = true -> Number.is_finite y = true ->
  nonneg x = true -> nonneg y = true ->
  nonneg (Number.mul x y) = true.
Proof.
  destruct x as [sx | sx | | sx mx ex], y as [sy | sy | | sy my ey];
    try discriminate; intros _ _ Hx Hy; cbn in Hx, Hy |- *; try reflexivity.
  destruct sx, sy; try discriminate.
  apply unsigned_nonneg, binary_round_aux_unsigned. lia.
Qed.

Lemma div_core_nonneg (m1 m2 : positive) (e1 e2 : Z) :
  0 <= fst (fst (SFdiv_core_binary Number.prec Number.emax (Zpos m1) e1 (Zpos m2) e2)).
Proof.
  unfold SFdiv_core_binary.
  set (s := _ - _ - _).
  set (m' := match s with Z0 => Zpos m1 | Zpos _ => Z.shiftl (Zpos m1) s | Zneg _ => 0 end).
  assert (Hm' : 0 <= m').
  { subst m'. destruct s; [lia | | lia]. apply Z.shiftl_nonneg. lia. }
  pose proof (Z.div_pos m' (Zpos m2) Hm' ltac:(lia)) as Hq.
  unfold Z.div in Hq.
  destruct (Z.div_eucl m' (Zpos m2)) as [q r]. exact Hq.
Qed.

(** A positive finite number divided by a positive finite number. *)
Lemma div_finite_unsigned (mx my : positive) (ex ey : Z) :
  unsigned (Number.div (S754_finite false mx ex) (S754_finite false my ey)) = true.
Proof.
  pose proof (div_core_nonneg mx my ex ey) as Hq.
  unfold Number.div, SFdiv.
  destruct (SFdiv_core_binary Number.prec Number.emax (Z.pos mx) ex (Z.pos my) ey)
    as [[mz ez] lz].
  apply binary_round_aux_unsigned. exact Hq.
Qed.

(** A number that is not negative divided by one whose sign bit is clear
    is not negative, unless the quotient is NaN ([0 / 0],
    [Infinity / Infinity]). *)
Lemma div_nonneg (x y : number) :
  nonneg x = true -> unsigned y = true ->
  Number.is_nan (Number.div x y) = false ->
  nonneg (Number.div x y) = true.
Proof.
  destruct x as [sx | sx | | sx mx ex], y as [sy | sy | | sy my ey];
    try discriminate; intros Hx Hy Hn; cbn in Hx, Hy, Hn |- *;
    try discriminate; try reflexivity;
    try (destruct sx; try discriminate; destruct sy; try discriminate; reflexivity).
  destruct sx, sy; try discriminate.
  apply unsigned_nonneg, div_finite_unsigned.
Qed.

Lemma floor_nonneg (x : number) :
  nonneg x = true -> nonneg (Number.floor x) = true.
Proof.
  destruct x as [sx | sx | | sx mx ex]; try (intros H; exact H).
  cbn. destruct sx; [discriminate |]. intros _.
  destruct (Z.leb_spec 0 ex) as [Hex | Hex]; [reflexivity |].
  apply unsigned_nonneg, binary_normalize_unsigned. cbn [cond_Zopp].
  apply Z.div_pos; [lia |]. apply Z.pow_pos_nonneg; lia.
Qed.

End Rounding.

Section Sign.
Import ReorderPoint DaysToReplenish.

Lemma js_le_zero (x : number) : js_le (lit 0) (Num x) = nonneg x.
Proof. apply leb_zero. Qed.

Lemma defaulted_nonneg (v : value) :
  nonneg_input v = true ->
  Number.is_finite (to_number (js_or v (lit 0))) = true /\
  nonneg (to_number (js_or v (lit 0))) = true.
Proof.
  unfold js_or. destruct (truthy v) eqn:Hv; [| split; reflexivity].
  destruct v as [| | x]; try discriminate.
  cbn. now intros [? ?]%andb_true_iff.
Qed.

Lemma calculateReorderPoint_nonneg (avgSales leadTime : value) :
  nonneg_input avgSales = true -> nonneg_input leadTime = true ->
  js_le (lit 0) (calculateReorderPoint avgSales leadTime) = true.
Proof.
  intros [Hfa Hna]%defaulted_nonneg [Hfl Hnl]%defaulted_nonneg.
  unfold calculateReorderPoint, js_mul. rewrite js_le_zero.
  now apply mul_nonneg.
Qed.

Lemma calculateDaysToReplenish_nonneg (st avgWeeklySales : value) :
  nonneg_input st = true -> nonneg_input avgWeeklySales = true ->
  (truthy avgWeeklySales = true ->
   js_strict_eq (js_div avgWeeklySales (lit 7)) (lit 0) = false) ->
  js_le (lit 0) (calculateDaysToReplenish st avgWeeklySales) = true.
Proof.
  intros [Hfs Hns]%defaulted_nonneg Ha Hdaily.
  destruct (truthy avgWeeklySales) eqn:Hs.
  - rewrite (calculateDaysToReplenish_sales _ _ Hs).
    specialize (Hdaily eq_refl).
    destruct avgWeeklySales as [| | a]; try discriminate.
    unfold js_strict_eq, js_div, lit in Hdaily.
    unfold Math_floor, js_div, lit at 3. rewrite js_le_zero. apply floor_nonneg.
    cbn [to_number] in *.
    apply andb_true_iff in Ha as [Hfa Hna].
    destruct a as [sa | sa | | sa ma ea]; try discriminate.
    destruct sa; [discriminate |].
    change (Number.of_Z 7) with (S754_finite false 7881299347898368 (-50)) in *.
    pose proof (div_finite_unsigned ma 7881299347898368 ea (-50)) as Hd.
    destruct (Number.div (S754_finite false ma ea) _) as [sd | sd | | sd md ed];
      try discriminate; destruct sd; try discriminate.
    + destruct (to_number (js_or st (lit 0))) as [sx | sx | | sx mx ex];
        try discriminate; reflexivity.
    + destruct (to_number (js_or st (lit 0))) as [sx | sx | | sx mx ex];
        try discriminate; [reflexivity |].
      destruct sx; [discriminate |].
      apply unsigned_nonneg, div_finite_unsigned.
  - rewrite (calculateDaysToReplenish_no_sales _ _ Hs). reflexivity.
Qed.

(** C7.  Both metric functions return a number for every input, and
    [calculateDaysToReplenish] returns 999 instead of dividing when
    [average_weekly_sales] is zero or missing.  The number is [>= 0] when
    the inputs are finite and not negative, provided for the days to
    replenish that [average_weekly_sales / 7] is not rounded to zero. *)
Theorem metrics_total_and_sign (a b : value) :
  (exists r, calculateReorderPoint a b = Num r) /\
  (exists r, calculateDaysToReplenish a b = Num r) /\
  (truthy b = false -> calculateDaysToReplenish a b = lit 999) /\
  (nonneg_input a = true -> nonneg_input b = true ->
   js_le (lit 0) (calculateReorderPoint a b) = true) /\
  (nonneg_input a = true -> nonneg_input b = true ->
   (truthy b = true -> js_strict_eq (js_div b (lit 7)) (lit 0) = false) ->
   js_le (lit 0) (calculateDaysToReplenish a b) = true).
Proof.
  split; [| split; [| split; [| split]]].
  - unfold calculateReorderPoint, js_mul. eauto.
  - unfold calculateDaysToReplenish, Math_floor, lit.
    destruct (js_strict_eq _ _); eauto.
  - apply calculateDaysToReplenish_no_sales.
  - apply calculateReorderPoint_nonneg.
  - apply calculateDaysToReplenish_nonneg.
Qed.

End Sign.

(** Both metrics of stock 21 against weekly sales 7 (read as sales 21 and
    lead time 7 by the reorder point) are [>= 0]. *)
Lemma metrics_total_and_sign_witness :
  nonneg_input (lit 21) = true /\ nonneg_input (lit 7) = true /\
  js_strict_eq (js_div (lit 7) (lit 7)) (lit 0) = false /\
  js_le (lit 0) (ReorderPoint.calculateReorderPoint (lit 21) (lit 7)) = true /\
  js_le (lit 0) (DaysToReplenish.calculateDaysToReplenish (lit 21) (lit 7)) = true.
Proof.
  split; [reflexivity | split; [reflexivity | split; [reflexivity |]]].
  destruct (metrics_total_and_sign (lit 21) (lit 7)) as (_ & _ & _ & Hr & Hd).
  split; [apply Hr | apply Hd]; reflexivity.
Defined.

(** A negative field gives a negative metric in either revision, and weekly
    sales so small that a seventh of them is rounded to zero give NaN when
    the stock is zero. *)
Lemma metric_can_be_negative :
  ReorderPoint.calculateReorderPoint (lit (-1)) (lit 5) = lit (-5) /\
  js_le (lit 0) (lit (-5)) = false /\
  DaysToReplenish.calculateDaysToReplenish (lit (-7)) (lit 7) = lit (-7) /\
  js_le (lit 0) (lit (-7)) = false /\
  DaysToReplenish.calculateDaysToReplenish (lit 0) (Num min_value) = Num Number.NaN /\
  js_le (lit 0) (Num Number.NaN) = false.
Proof. vm_compute. repeat split. Qed.

(** ** The properties at concrete catalogs *)

Local Open Scope nat_scope.

(** The dataset of the run on Widget and Gadget. *)
Lemma dataset_of_run_witness :
  products two_products <> [] /\
  exists X Y,
    fit_log (handlePredict (tf := answering) ReorderPoint.rev two_products).2 =
      fit_log two_products ++ [(X, Y, epochs_of ReorderPoint.rev)] /\
    length X = length (products two_products) /\
    length Y = length (products two_products) /\
    forall i p, products two_products !! i = Some p ->
      X !! i = Some [stock p;
                     js_or (average_weekly_sales p) (lit 0);
                     js_or (lead_time p) (lit 0)] /\
      Y !! i = Some [label_of ReorderPoint.rev p].
Proof.
  split; [discriminate |].
  apply (dataset_of_run (tf := answering) ReorderPoint.rev two_products
           (handlePredict (tf := answering) ReorderPoint.rev two_products).1).
  - discriminate.
  - apply surjective_pairing.
Defined.

(** A record without stock keeps [undefined] in its feature row: the row
    handed to [model.fit] starts with [undefined], which is not [0]. *)
Lemma missing_stock_is_not_coerced :
  fit_log (handlePredict (tf := answering) ReorderPoint.rev (loaded [Unstocked])).2 =
    [([[Undefined; lit 7; lit 2]], [[lit 0]], 80)] /\
  features Unstocked = [Undefined; lit 7; lit 2] /\
  features Unstocked <> [lit 0; lit 7; lit 2].
Proof. split; [vm_compute; reflexivity | split; [reflexivity | discriminate]]. Qed.

(** The run on Widget and Gadget against the library that answers. *)
Lemma results_follow_catalog_witness :
  products two_products <> [] /\
  model_fit (TensorFlow := answering) (trainingInputs (products two_products))
    (column (trainingOutputs ReorderPoint.rev (products two_products)))
    (epochs_of ReorderPoint.rev) = Some tt /\
  Forall (fun p => is_Some (model_predict_data (TensorFlow := answering) tt [features p]))
         (products two_products) /\
  exists w',
    handlePredict (tf := answering) ReorderPoint.rev two_products = (Returned tt, w') /\
    length (predictionResults w') = length (products two_products) /\
    forall i p, products two_products !! i = Some p ->
      exists y,
        model_predict_data (TensorFlow := answering) tt [features p] = Some y /\
        predictionResults w' !! i =
          Some {| r_name := name p;
                  prediction := if js_gt (Num y) lit_half then Reorder else NoReorder;
                  r_stock := stock p;
                  avgSales := average_weekly_sales p;
                  leadTime := lead_time p;
                  derived := metric_of ReorderPoint.rev p |}.
Proof.
  assert (Hall : Forall (fun p => is_Some (model_predict_data (TensorFlow := answering) tt
                                             [features p])) (products two_products)).
  { repeat constructor; eexists; reflexivity. }
  split; [discriminate | split; [reflexivity | split; [exact Hall |]]].
  apply (results_follow_catalog (tf := answering) ReorderPoint.rev two_products tt).
  - discriminate.
  - reflexivity.
  - exact Hall.
Defined.

(** The two results of that run: Widget (stock 10) is scored 0.75 and
    Gadget (stock 21) 0.25. *)
Example two_products_results :
  map (fun r => (r_name r, prediction r))
      (predictionResults (handlePredict (tf := answering) ReorderPoint.rev two_products).2) =
    [("Widget"%string, Reorder); ("Gadget"%string, NoReorder)].
Proof. vm_compute. reflexivity. Qed.

(** The component as mounted, before the fetch has settled. *)
Lemma empty_catalog_witness :
  reachable (tf := answering) ReorderPoint.rev initial /\
  products initial = [] /\
  handlePredict (tf := answering) ReorderPoint.rev initial = (Returned tt, initial) /\
  predicting initial = false /\
  predictionResults initial = [] /\
  fit_log initial = [].
Proof.
  assert (Hr : reachable (tf := answering) ReorderPoint.rev initial) by apply rtc_refl.
  split; [exact Hr | split; [reflexivity |]].
  apply (empty_catalog_is_a_no_op (tf := answering) ReorderPoint.rev initial Hr).
  reflexivity.
Defined.

(** The catalog of Widget and Gadget: the flag is not read, and a run logs
    one call of [model.fit]. *)
Lemma run_state_protocol_witness :
  products two_products <> [] /\
  (forall b, handlePredict (tf := answering) ReorderPoint.rev (setPredicting b two_products) =
             handlePredict (tf := answering) ReorderPoint.rev two_products) /\
  forall o w',
    handlePredict (tf := answering) ReorderPoint.rev two_products = (o, w') ->
    fit_log w' = fit_log two_products ++ [fit_call ReorderPoint.rev two_products] /\
    predicting w' = (match o with Returned _ => false | Thrown => true end).
Proof.
  assert (Hne : products two_products <> []) by discriminate.
  split; [exact Hne |].
  destruct (run_state_protocol (tf := answering) ReorderPoint.rev two_products)
    as (_ & _ & Hrun).
  exact (Hrun Hne).
Defined.

(** When [model.fit] throws, the run throws and leaves [predicting] at
    [true]; a call of [handlePredict] in that state is not refused: it calls
    [model.fit] a second time. *)
Lemma failed_run_stays_predicting :
  failed_run.1 = Thrown /\
  predicting failed_run.2 = true /\
  length (fit_log failed_run.2) = 1 /\
  length (fit_log (handlePredict (tf := throwing) ReorderPoint.rev failed_run.2).2) = 2.
Proof. vm_compute. repeat split. Qed.

(** The run on Widget and Gadget starts with no tensor allocated and ends
    with none made by [tf.tensor2d]. *)
Lemma tensor2d_buffers_witness :
  fresh_above two_products /\
  products two_products <> [] /\
  exists w',
    handlePredict (tf := answering) ReorderPoint.rev two_products = (Returned tt, w') /\
    forall id t, made_by t = FromTensor2d ->
      (tensors w' !! id = Some t <-> tensors two_products !! id = Some t).
Proof.
  assert (Hw : fresh_above two_products) by (intros id _; apply lookup_empty).
  assert (Hne : products two_products <> []) by discriminate.
  split; [exact Hw | split; [exact Hne |]].
  destruct (tensor2d_buffers_of_a_run (tf := answering) ReorderPoint.rev two_products Hw Hne)
    as [Hok _].
  apply (Hok tt); [reflexivity |].
  repeat constructor; eexists; reflexivity.
Defined.

(** When [model.fit] throws, the two training tensors are still allocated
    after the run. *)
Lemma failed_run_keeps_training_tensors :
  failed_run.1 = Thrown /\
  tensors failed_run.2 !! 0 =
    Some {| tid := 0; made_by := FromTensor2d; values := [[lit 10; lit 7; lit 2]] |} /\
  tensors failed_run.2 !! 1 =
    Some {| tid := 1; made_by := FromTensor2d; values := [[lit 1]] |} /\
  size (tensors failed_run.2) = 2.
Proof. vm_compute. repeat split. Qed.

(** In a run that returns, the output tensor of each [model.predict] is what
    remains in the table. *)
Example outputs_remain_allocated :
  made_by <$> tensors (handlePredict (tf := answering) ReorderPoint.rev two_products).2 =
    {[ 3 := FromPredict; 5 := FromPredict ]}.
Proof. vm_compute. reflexivity. Qed.

(** ** Runs that return, and the table *)

Section Returned.
Context `{tf : TensorFlow}.
Variable rev : revision.

(** The results a loop that returns has pushed: one per record, in order,
    each from an answer of the model. *)
Lemma predict_loop_inv (model : Model) (ps : list product) :
  forall preds w rs' w',
    predict_loop rev model ps preds w = (Returned rs', w') ->
    exists rs,
      rs' = preds ++ rs /\
      Forall2 (fun p r => exists y, model_predict_data model [features p] = Some y /\
                                    r = result_of rev p y) ps rs.
Proof.
  induction ps as [| p rest IH]; intros preds w rs' w'; cbn [predict_loop].
  - intros [= <- _]. exists []. split; [now rewrite app_nil_r | constructor].
  - unfold mbind at 1, M_bind at 1. rewrite predict_one_unfold. cbn zeta.
    destruct (model_predict_data model [features p]) as [y |] eqn:Hy; [| discriminate].
    intros Hloop. destruct (IH _ _ _ _ Hloop) as (rs & -> & Hrs).
    exists (result_of rev p y :: rs). split.
    + now rewrite <- app_assoc.
    + constructor; [eauto | exact Hrs].
Qed.

(** What a run that returned on a catalog that is not empty has done. *)
Lemma returned_run_inv (w w' : world) :
  products w <> [] ->
  handlePredict rev w = (Returned tt, w') ->
  exists model,
    model_fit (trainingInputs (products w))
              (column (trainingOutputs rev (products w))) (epochs_of rev) = Some model /\
    Forall2 (fun p r => exists y, model_predict_data model [features p] = Some y /\
                                  r = result_of rev p y)
            (products w) (predictionResults w') /\
    products w' = products w /\
    loading w' = loading w /\
    error w' = error w /\
    predicting w' = false.
Proof.
  intros Hps Hrun.
  destruct (handlePredict_outcome rev w _ w' Hps Hrun) as (Hp & Hl & He & _ & Hg).
  rewrite (handlePredict_unfold rev w Hps) in Hrun.
  destruct (model_fit _ _ _) as [model |]; [| discriminate].
  exists model. split; [reflexivity |].
  destruct (predict_loop rev model (products w) [] (after_fit rev w)) as [[preds |] w1] eqn:Hloop;
    [| discriminate].
  injection Hrun as <-.
  destruct (predict_loop_inv model _ _ _ _ _ Hloop) as (rs & -> & Hrs).
  repeat split; assumption.
Qed.

(** What the table is given, before there are results and after a run that
    returned. *)
Lemma shown_entries_before (w : world) :
  predictionResults w = [] ->
  shown_entries rev w = map (entry_of_product rev) (products w).
Proof. unfold shown_entries. now intros ->. Qed.

Lemma shown_entries_after (w w' : world) :
  products w <> [] ->
  handlePredict rev w = (Returned tt, w') ->
  shown_entries rev w' = map entry_of_result (predictionResults w').
Proof.
  intros Hps Hrun.
  destruct (returned_run_inv w w' Hps Hrun) as (model & _ & Hrs & _).
  apply Forall2_length in Hrs. unfold shown_entries.
  destruct (predictionResults w') as [| r rs]; [| reflexivity].
  destruct (products w); [congruence | discriminate].
Qed.

End Returned.

Section TableFacts.
Context `{tf : TensorFlow}.
Variable l : layout.

Lemma lit_one_is_not_zero : lit 1 <> lit 0.
Proof. discriminate. Qed.

(** The row of a record before there are results, and after a run that
    returned. *)
Lemma rows_of_record (w w' : world) (i : nat) (p : product) :
  predictionResults w = [] ->
  handlePredict (revision_of l) w = (Returned tt, w') ->
  products w !! i = Some p ->
  exists model y,
    model_fit (trainingInputs (products w))
              (column (trainingOutputs (revision_of l) (products w)))
              (epochs_of (revision_of l)) = Some model /\
    model_predict_data model [features p] = Some y /\
    table l w !! i = Some (render_row l i (entry_of_product (revision_of l) p)) /\
    table l w' !! i =
      Some (render_row l i (entry_of_result (result_of (revision_of l) p y))).
Proof.
  intros Hnone Hrun Hp.
  assert (Hps : products w <> []) by (intros He; rewrite He in Hp; discriminate).
  destruct (returned_run_inv _ w w' Hps Hrun) as (model & Hfit & Hrs & _).
  destruct (Forall2_lookup_l _ _ _ _ _ Hrs Hp) as (r & Hr & y & Hy & ->).
  exists model, y. split; [exact Hfit | split; [exact Hy | split]].
  - unfold table. rewrite list_lookup_imap, (shown_entries_before _ w Hnone).
    rewrite list_lookup_fmap, Hp. reflexivity.
  - unfold table. rewrite list_lookup_imap, (shown_entries_after _ w w' Hps Hrun).
    rewrite list_lookup_fmap, Hr. reflexivity.
Qed.

(** X1.  Before there are results the table has one row per product, in
    catalog order, and every prediction cell reads ['-']; after a run that
    returned it has one row per product again, in the same order, and the
    prediction cell of a row holds the decision for its record. *)
Theorem table_follows_catalog (w w' : world) :
  predictionResults w = [] ->
  products w <> [] ->
  handlePredict (revision_of l) w = (Returned tt, w') ->
  length (table l w) = length (products w) /\
  length (table l w') = length (products w) /\
  forall i p, products w !! i = Some p ->
    exists before after model y,
      table l w !! i = Some before /\
      table l w' !! i = Some after /\
      td_name before = name p /\ td_name after = name p /\
      td_prediction before = None /\
      model_fit (trainingInputs (products w))
                (column (trainingOutputs (revision_of l) (products w)))
                (epochs_of (revision_of l)) = Some model /\
      model_predict_data model [features p] = Some y /\
      td_prediction after =
        Some (if js_gt (Num y) lit_half then Reorder else NoReorder).
Proof.
  intros Hnone Hps Hrun. split; [| split].
  - unfold table. rewrite length_imap, (shown_entries_before _ w Hnone).
    apply length_map.
  - unfold table. rewrite length_imap, (shown_entries_after _ w w' Hps Hrun), length_map.
    destruct (returned_run_inv _ w w' Hps Hrun) as (model & _ & Hrs & _).
    symmetry. apply (Forall2_length _ _ _ Hrs).
  - intros i p Hp.
    destruct (rows_of_record w w' i p Hnone Hrun Hp) as (model & y & Hfit & Hy & Hb & Ha).
    eexists _, _, model, y. split; [exact Hb | split; [exact Ha |]].
    repeat split; assumption.
Qed.

(** X2.  A run that returned changes nothing but the prediction cell in the
    row of a record whose [average_weekly_sales] and [lead_time] are nonzero
    numbers (and, in the revision without a metric column, whose [stock] is
    one too): key, name, stock, sales, lead time and metric cell, highlight
    included, are what they were. *)
Theorem complete_rows_keep_their_cells (w w' : world) (i : nat) (p : product) :
  predictionResults w = [] ->
  handlePredict (revision_of l) w = (Returned tt, w') ->
  products w !! i = Some p ->
  truthy (average_weekly_sales p) = true ->
  truthy (lead_time p) = true ->
  (l = Plain -> truthy (stock p) = true) ->
  exists before after,
    table l w !! i = Some before /\
    table l w' !! i = Some after /\
    key after = key before /\
    td_name after = td_name before /\
    td_stock after = td_stock before /\
    td_sales after = td_sales before /\
    td_lead after = td_lead before /\
    td_metric after = td_metric before.
Proof.
  intros Hnone Hrun Hp Hs Hl Hst.
  destruct (rows_of_record w w' i p Hnone Hrun Hp) as (model & y & _ & _ & Hb & Ha).
  eexists _, _. split; [exact Hb | split; [exact Ha |]].
  unfold render_row. cbn. unfold js_or at 1 2 3 4. cbn [truthy]. rewrite Hs, Hl.
  repeat split.
  - destruct l; try reflexivity. unfold js_or. cbn [truthy].
    now rewrite (Hst eq_refl).
  - destruct l; try reflexivity. unfold js_or. cbn [truthy]. now rewrite Hl.
Qed.

(** X3.  The sales and lead-time cells are [avgSales || average_weekly_sales]
    and [leadTime || lead_time]: before there are results they show the
    record's field as it is, a 0 included; after a run that returned they
    show the field when it is a nonzero number and [undefined], an empty
    cell, when it is 0, [null] or missing. *)
Theorem zero_fields_vanish_after_a_run (w w' : world) (i : nat) (p : product) :
  predictionResults w = [] ->
  handlePredict (revision_of l) w = (Returned tt, w') ->
  products w !! i = Some p ->
  exists before after,
    table l w !! i = Some before /\
    table l w' !! i = Some after /\
    td_sales before = average_weekly_sales p /\
    td_lead before = lead_time p /\
    td_sales after =
      (if truthy (average_weekly_sales p) then average_weekly_sales p else Undefined) /\
    td_lead after =
      (if truthy (lead_time p) then lead_time p else Undefined).
Proof.
  intros Hnone Hrun Hp.
  destruct (rows_of_record w w' i p Hnone Hrun Hp) as (model & y & _ & _ & Hb & Ha).
  eexists _, _. split; [exact Hb | split; [exact Ha |]].
  cbn. unfold js_or. cbn [truthy]. repeat split.
Qed.

End TableFacts.

Section Highlights.
Context `{tf : TensorFlow}.

(** X4.  In the reorder-point revision the metric cell of a row is
    highlighted exactly when the training label of its record is 1, before
    there are results and after a run that returned, and the cell shows the
    record's reorder point. *)
Theorem reorder_point_highlight_is_the_label (w w' : world) (i : nat) (p : product) :
  predictionResults w = [] ->
  handlePredict ReorderPoint.rev w = (Returned tt, w') ->
  products w !! i = Some p ->
  exists before after h,
    table WithReorderPoint w !! i = Some before /\
    table WithReorderPoint w' !! i = Some after /\
    td_metric before = Some (h, [Child (ReorderPoint.metric p)]) /\
    td_metric after = Some (h, [Child (ReorderPoint.metric p)]) /\
    (h = true <-> ReorderPoint.label p = lit 1).
Proof.
  intros Hnone Hrun Hp.
  destruct (rows_of_record WithReorderPoint w w' i p Hnone Hrun Hp)
    as (model & y & _ & _ & Hb & Ha).
  eexists _, _, (js_le (stock p) (ReorderPoint.metric p)).
  split; [exact Hb | split; [exact Ha | split; [reflexivity | split; [reflexivity |]]]].
  unfold ReorderPoint.label. fold (ReorderPoint.metric p).
  destruct (js_le (stock p) (ReorderPoint.metric p)).
  - split; reflexivity.
  - split; [discriminate | intros Hc; symmetry in Hc; destruct (lit_one_is_not_zero Hc)].
Qed.

(** [d <= (lt || undefined)], the test of the highlight on a result. *)
Lemma le_or_undefined (d lt : value) :
  js_le d (js_or lt Undefined) = (truthy lt && js_le d lt).
Proof.
  unfold js_or. destruct (truthy lt); [reflexivity |].
  unfold js_le. cbn. destruct (to_number d); reflexivity.
Qed.

(** X5.  In the days-to-replenish revision a highlighted metric cell always
    belongs to a record whose training label is 1, before there are results
    and after a run that returned; for a record whose [lead_time] is a
    nonzero number the cell is highlighted exactly when the label is 1. *)
Theorem days_highlight_implies_the_label (w w' : world) (i : nat) (p : product) :
  predictionResults w = [] ->
  handlePredict DaysToReplenish.rev w = (Returned tt, w') ->
  products w !! i = Some p ->
  exists before after hb ha kb ka,
    table WithDaysToReplenish w !! i = Some before /\
    table WithDaysToReplenish w' !! i = Some after /\
    td_metric before = Some (hb, kb) /\
    td_metric after = Some (ha, ka) /\
    (hb = true -> DaysToReplenish.label p = lit 1) /\
    (ha = true -> DaysToReplenish.label p = lit 1) /\
    (truthy (lead_time p) = true ->
     (hb = true <-> DaysToReplenish.label p = lit 1) /\
     (ha = true <-> DaysToReplenish.label p = lit 1)).
Proof.
  intros Hnone Hrun Hp.
  destruct (rows_of_record WithDaysToReplenish w w' i p Hnone Hrun Hp)
    as (model & y & _ & _ & Hb & Ha).
  eexists _, _, _, _, _, _.
  split; [exact Hb | split; [exact Ha | split; [reflexivity | split; [reflexivity |]]]].
  cbn [render_row entry_of_product entry_of_result result_of revision_of
       e_metric e_leadTime e_lead_time metric_of DaysToReplenish.rev leadTime derived].
  rewrite le_or_undefined.
  change (js_or Undefined (lead_time p)) with (lead_time p).
  unfold DaysToReplenish.label. fold (DaysToReplenish.metric p).
  assert (Hlab : forall b : bool,
             (if b then lit 1 else lit 0) = lit 1 <-> b = true).
  { intros [|]; split; try reflexivity; discriminate. }
  destruct (truthy (lead_time p)) eqn:Hlt.
  - rewrite (js_or_truthy _ (lit 0) Hlt). cbn [andb].
    repeat split; try (intros; apply Hlab; assumption); intros ?%Hlab; assumption.
  - cbn [andb]. split; [| split; [discriminate | discriminate]].
    intros Hle. apply Hlab.
    destruct (falsy_inv _ Hlt) as [Hu | [Hn | [[s Hz] | Hnan]]].
    + rewrite Hu in Hle. unfold js_le in Hle. cbn in Hle.
      destruct (to_number (DaysToReplenish.metric p)); discriminate.
    + rewrite <- Hle. apply le_defaulted; rewrite Hn; discriminate.
    + rewrite <- Hle. apply le_defaulted; rewrite Hz; discriminate.
    + rewrite Hnan in Hle. unfold js_le in Hle. cbn in Hle.
      destruct (to_number (DaysToReplenish.metric p)); discriminate.
Qed.

(** X6.  In the days-to-replenish revision the metric cell of a record
    whose [average_weekly_sales] is zero or missing reads ['> 999 Days'],
    before there are results and after a run that returned. *)
Theorem no_sales_reads_more_than_999_days (w w' : world) (i : nat) (p : product) :
  predictionResults w = [] ->
  handlePredict DaysToReplenish.rev w = (Returned tt, w') ->
  products w !! i = Some p ->
  truthy (average_weekly_sales p) = false ->
  exists before after hb ha,
    table WithDaysToReplenish w !! i = Some before /\
    table WithDaysToReplenish w' !! i = Some after /\
    td_metric before = Some (hb, [Literal "> 999"; Literal " Days"]) /\
    td_metric after = Some (ha, [Literal "> 999"; Literal " Days"]).
Proof.
  intros Hnone Hrun Hp Hs.
  destruct (rows_of_record WithDaysToReplenish w w' i p Hnone Hrun Hp)
    as (model & y & _ & _ & Hb & Ha).
  eexists _, _, _, _.
  split; [exact Hb | split; [exact Ha |]].
  cbn [render_row entry_of_product entry_of_result result_of revision_of
       e_metric metric_of DaysToReplenish.rev derived td_metric].
  unfold DaysToReplenish.metric.
  rewrite (calculateDaysToReplenish_no_sales _ _ Hs).
  split; reflexivity.
Qed.

(** X7.  In the revision without a metric column the stock cell is
    [stock || avgSales]: after a run that returned, the cell of a record
    whose [stock] is 0, [null] or missing shows the record's
    [average_weekly_sales] (which before the run it did not), and the cell
    of any other record its stock. *)
Theorem plain_stock_cell_falls_back_to_sales (w w' : world) (i : nat) (p : product) :
  predictionResults w = [] ->
  handlePredict SalesThreshold.rev w = (Returned tt, w') ->
  products w !! i = Some p ->
  exists before after,
    table Plain w !! i = Some before /\
    table Plain w' !! i = Some after /\
    td_stock before = (if truthy (stock p) then stock p else Undefined) /\
    td_stock after = (if truthy (stock p) then stock p else average_weekly_sales p).
Proof.
  intros Hnone Hrun Hp.
  destruct (rows_of_record Plain w w' i p Hnone Hrun Hp) as (model & y & _ & _ & Hb & Ha).
  eexists _, _. split; [exact Hb | split; [exact Ha |]].
  cbn. unfold js_or. split; reflexivity.
Qed.

End Highlights.

(** ** Sessions *)

Section Sessions.
Context `{tf : TensorFlow}.
Variable l : layout.

(** There is an error only where the fetch was rejected, and then there are
    no products. *)
Lemma reachable_error_free (w : world) :
  reachable (revision_of l) w ->
  (loading w = true -> error w = None) /\
  (products w <> [] -> error w = None).
Proof.
  unfold reachable. revert w.
  apply (rtc_ind_r (fun w => (loading w = true -> error w = None) /\
                             (products w <> [] -> error w = None)) initial).
  - split; reflexivity.
  - intros y z Hy Hstep [Hload Hprod].
    destruct (reachable_settled _ y Hy) as [Hempty _].
    destruct Hstep as [w data Hl | w message Hl | w o w' Hrun].
    + split; [discriminate |]. intros _. exact (Hload Hl).
    + split; [discriminate |]. intros Hne. destruct (Hne (Hempty Hl)).
    + destruct (decide (products w = [])) as [Hps | Hne].
      * rewrite (handlePredict_empty _ w Hps) in Hrun.
        injection Hrun as _ <-. split; assumption.
      * destruct (handlePredict_outcome _ w o w' Hne Hrun) as (_ & _ & He & _).
        split; intros _; rewrite He; exact (Hprod Hne).
Qed.

(** With the fetch settled and no products, no step changes the hooks. *)
Lemma empty_session_stays (w1 w2 : world) :
  loading w1 = false -> products w1 = [] ->
  rtc (step (revision_of l)) w1 w2 -> w2 = w1.
Proof.
  intros Hl Hp Hrtc. induction Hrtc as [| x y z Hstep _ IH]; [reflexivity |].
  assert (Hxy : y = x).
  { destruct Hstep as [x data Hl' | x msg Hl' | x o y Hrun]; try congruence.
    rewrite (handlePredict_empty _ x Hp) in Hrun. now injection Hrun as _ <-. }
  subst y. exact (IH Hl Hp).
Qed.

(** X8.  When the fetch is rejected, the component shows the error (the
    error's message, or ['Error fetching products'] when the message is
    empty) for the rest of the session: however often [handlePredict] is
    called, the catalog stays empty, no table is rendered and [model.fit] is
    never called. *)
Theorem a_rejected_fetch_ends_the_session (w w2 : world) (message : string) :
  reachable (revision_of l) w ->
  loading w = true ->
  rtc (step (revision_of l)) (fetch_rejected message w) w2 ->
  render l w2 =
    Alert (match message with
           | EmptyString => "Error fetching products"%string
           | _ => message
           end) /\
  products w2 = [] /\
  fit_log w2 = [].
Proof.
  intros Hr Hl Hrtc.
  destruct (reachable_settled _ w Hr) as [Hload Hempty].
  destruct (Hempty (Hload Hl)) as (_ & _ & Hlog).
  rewrite (empty_session_stays (fetch_rejected message w) w2 eq_refl (Hload Hl) Hrtc).
  split; [| split; [exact (Hload Hl) | exact Hlog]].
  unfold render, fetch_rejected. cbn [loading setLoading setError error].
  destruct message as [| c s]; reflexivity.
Qed.

(** With the fetch settled and [predicting] at [true], neither the fetch
    nor a click changes the state. *)
Lemma busy_session_stays (w1 w2 : world) :
  loading w1 = false -> predicting w1 = true ->
  rtc (ui_step l) w1 w2 -> w2 = w1.
Proof.
  intros Hl Hg Hrtc. induction Hrtc as [| x y z Hstep _ IH]; [reflexivity |].
  assert (Hxy : y = x).
  { destruct Hstep as [x data Hl' | x msg Hl' | x o y Hclick]; try congruence.
    unfold click_Predict in Hclick. rewrite Hg, !orb_true_r in Hclick.
    now injection Hclick as _ <-. }
  subst y. exact (IH Hl Hg).
Qed.

(** X9.  When a run throws, at [model.fit] or at an inference, the page is
    left with the button disabled and reading ['Predicting...'] over the
    table as it was before the run, and it stays so: no click on Predict
    changes the state any more. *)
Theorem a_run_that_throws_disables_predict (w w' : world) :
  reachable (revision_of l) w ->
  handlePredict (revision_of l) w = (Thrown, w') ->
  render l w' = Page true "Predicting..." (table l w) /\
  forall w'', rtc (ui_step l) w' w'' -> w'' = w'.
Proof.
  intros Hr Hrun.
  assert (Hne : products w <> []).
  { intros Hps. rewrite (handlePredict_empty _ w Hps) in Hrun. discriminate. }
  destruct (reachable_settled _ w Hr) as [Hload _].
  destruct (reachable_error_free w Hr) as [_ Herr].
  destruct (handlePredict_outcome _ w _ w' Hne Hrun) as (Hp & Hl & He & _ & Hg).
  assert (Hlw : loading w = false).
  { destruct (loading w) eqn:E; [destruct (Hne (Hload eq_refl)) | reflexivity]. }
  assert (Hres : predictionResults w' = predictionResults w).
  { rewrite (handlePredict_unfold _ w Hne) in Hrun.
    destruct (model_fit _ _ _) as [model |].
    - pose proof (predict_loop_hooks (revision_of l) model (products w) []
                    (after_fit (revision_of l) w)) as Hk.
      destruct (predict_loop _ model (products w) [] _) as [[preds |] w1];
        [discriminate |].
      injection Hrun as <-. destruct Hk as (_ & Hk & _). exact Hk.
    - injection Hrun as <-. reflexivity. }
  split.
  - unfold render, table, shown_entries.
    rewrite Hl, Hlw, He, (Herr Hne), Hg, Hres, Hp. reflexivity.
  - intros w'' Hrtc. apply (busy_session_stays w' w''); [congruence | exact Hg | exact Hrtc].
Qed.

End Sessions.

(** ** Tensors a run leaves *)

Section Leak.
Context `{tf : TensorFlow}.
Variable rev : revision.





End Leak.

(** ** Records without sales, lead time or stock *)

Local Open Scope Z_scope.

Section EdgeRecords.

Lemma leb_any_zero (x : number) (s : bool) :
  Number.leb x (S754_zero s) = Number.leb x (S754_zero false).
Proof. destruct x as [sx | sx | | sx mx ex]; reflexivity. Qed.

Lemma mul_zero_finite (x y : number) :
  (exists s, x = S754_zero s) \/ (exists s, y = S754_zero s) ->
  Number.is_finite x = true -> Number.is_finite y = true ->
  exists s, Number.mul x y = S754_zero s.
Proof.
  intros Hz Hx Hy.
  destruct x as [sx | sx | | sx mx ex], y as [sy | sy | | sy my ey];
    try discriminate; cbn; eauto.
  destruct Hz as [[s Hs] | [s Hs]]; discriminate.
Qed.

Lemma defaulted_finite (v : value) :
  finite_input v = true -> Number.is_finite (to_number (js_or v (lit 0))) = true.
Proof.
  unfold js_or. destruct (truthy v) eqn:Hv; [| reflexivity].
  destruct v; try discriminate. intros H. exact H.
Qed.

Lemma defaulted_falsy (v : value) :
  truthy v = false -> to_number (js_or v (lit 0)) = S754_zero false.
Proof. intros Hv. now rewrite (js_or_falsy v _ Hv). Qed.

(** X11.  In the reorder-point revision a record whose
    [average_weekly_sales] or [lead_time] is zero or missing, the other
    being finite, has reorder point 0, and its training label is 1 exactly
    when [stock <= 0]. *)
Theorem reorder_point_without_sales_or_lead_time (p : product) :
  truthy (average_weekly_sales p) = false \/ truthy (lead_time p) = false ->
  finite_input (average_weekly_sales p) = true ->
  finite_input (lead_time p) = true ->
  js_strict_eq (ReorderPoint.metric p) (lit 0) = true /\
  ReorderPoint.label p = (if js_le (stock p) (lit 0) then lit 1 else lit 0).
Proof.
  intros Hz Hfs Hfl.
  assert (Hm : exists s, ReorderPoint.metric p = Num (S754_zero s)).
  { unfold ReorderPoint.metric, ReorderPoint.calculateReorderPoint, js_mul.
    destruct (mul_zero_finite
                (to_number (js_or (average_weekly_sales p) (lit 0)))
                (to_number (js_or (lead_time p) (lit 0)))) as [s Hs].
    - destruct Hz as [Hs | Hl]; [left | right];
        rewrite (defaulted_falsy _ ltac:(eassumption)); eauto.
    - now apply defaulted_finite.
    - now apply defaulted_finite.
    - exists s. now rewrite Hs. }
  destruct Hm as [s Hm]. unfold ReorderPoint.label.
  fold (ReorderPoint.metric p). rewrite Hm. split.
  - destruct s; reflexivity.
  - unfold js_le. cbn [to_number lit]. rewrite leb_any_zero. reflexivity.
Qed.

(** Rounding a magnitude that is not negative never gives NaN, whatever
    the sign. *)
Lemma binary_round_aux_is_not_nan (sx : bool) (m e : Z) (l : location) :
  0 <= m ->
  Number.is_nan (binary_round_aux Number.prec Number.emax sx m e l) = false.
Proof.
  intros Hm. unfold binary_round_aux.
  pose proof (shr_fexp_nonneg m e l Hm) as H1.
  destruct (shr_fexp Number.prec Number.emax m e l) as [mrs' e'].
  pose proof (shr_fexp_nonneg _ e' loc_Exact
                (round_nearest_even_nonneg _ (loc_of_shr_record mrs') H1)) as H2.
  destruct (shr_fexp Number.prec Number.emax _ e' loc_Exact) as [mrs'' e''].
  cbn in H2. destruct (shr_m mrs'') as [| q | q]; [reflexivity | | lia].
  destruct (e'' <=? Number.emax - Number.prec); reflexivity.
Qed.

Lemma div_finite_is_not_nan (sx sy : bool) (mx my : positive) (ex ey : Z) :
  Number.is_nan (Number.div (S754_finite sx mx ex) (S754_finite sy my ey)) = false.
Proof.
  pose proof (div_core_nonneg mx my ex ey) as Hq.
  unfold Number.div, SFdiv.
  destruct (SFdiv_core_binary Number.prec Number.emax (Z.pos mx) ex (Z.pos my) ey)
    as [[mz ez] lz].
  apply binary_round_aux_is_not_nan. exact Hq.
Qed.

(** X12.  In the days-to-replenish revision a record that sells (a finite,
    nonzero [average_weekly_sales] of which a seventh is not rounded to
    zero) and whose [stock] is 0 or missing has 0 days left, and its
    training label is 1 whenever its [lead_time] is not negative (or is
    missing). *)
Theorem a_sold_out_record_is_labelled_reorder (p : product) (a : number) :
  truthy (stock p) = false ->
  average_weekly_sales p = Num a ->
  truthy (Num a) = true ->
  Number.is_finite a = true ->
  js_strict_eq (js_div (Num a) (lit 7)) (lit 0) = false ->
  nonneg_input (lead_time p) = true ->
  js_strict_eq (DaysToReplenish.metric p) (lit 0) = true /\
  DaysToReplenish.label p = lit 1.
Proof.
  intros Hst Ha Hta Hfa Hd Hlt.
  assert (Hm : exists s, DaysToReplenish.metric p = Num (S754_zero s)).
  { unfold DaysToReplenish.metric. rewrite Ha.
    rewrite (calculateDaysToReplenish_sales _ _ Hta).
    unfold Math_floor, js_div. rewrite (defaulted_falsy _ Hst).
    unfold js_strict_eq, js_div, lit in Hd. cbn [to_number] in Hd |- *.
    destruct a as [sa | sa | | sa ma ea]; try discriminate.
    change (Number.of_Z 7) with (S754_finite false 7881299347898368 (-50)) in *.
    pose proof (div_finite_is_not_nan sa false ma 7881299347898368 ea (-50)) as Hn.
    destruct (Number.div (S754_finite sa ma ea) _) as [sd | sd | | sd md ed];
      try discriminate; cbn; eauto. }
  destruct Hm as [s Hm]. unfold DaysToReplenish.label.
  fold (DaysToReplenish.metric p). rewrite Hm. split.
  - destruct s; reflexivity.
  - destruct (defaulted_nonneg _ Hlt) as [_ Hn].
    unfold js_le. cbn [to_number].
    destruct (to_number (js_or (lead_time p) (lit 0))) as [sl | sl | | sl ml el];
      try discriminate; try destruct sl; try discriminate; reflexivity.
Qed.

End EdgeRecords.

(** ** The table and the sessions at concrete catalogs *)

Local Open Scope nat_scope.

Lemma returned_pair {A : Type} (x : outcome unit * A) :
  x.1 = Returned tt -> x = (Returned tt, x.2).
Proof. destruct x as [o a]. cbn. now intros ->. Qed.

Lemma ran_returned (l : layout) :
  handlePredict (tf := answering) (revision_of l) two_products = (Returned tt, ran l).
Proof.
  unfold ran.
  apply (returned_pair (handlePredict (tf := answering) (revision_of l) two_products)).
  destruct l; vm_compute; reflexivity.
Qed.

Lemma ran_edge_returned (l : layout) :
  handlePredict (tf := answering) (revision_of l) edge_products = (Returned tt, ran_edge l).
Proof.
  unfold ran_edge.
  apply (returned_pair (handlePredict (tf := answering) (revision_of l) edge_products)).
  destruct l; vm_compute; reflexivity.
Qed.

Lemma failed_run_thrown :
  handlePredict (tf := throwing) (revision_of WithReorderPoint) (loaded [Widget]) =
    (Thrown, failed_run.2).
Proof. vm_compute. reflexivity. Qed.

(** The table of Widget and Gadget has two rows before and after the run. *)
Lemma table_follows_catalog_witness :
  predictionResults two_products = [] /\
  products two_products <> [] /\
  handlePredict (tf := answering) (revision_of WithReorderPoint) two_products =
    (Returned tt, ran WithReorderPoint) /\
  length (table WithReorderPoint two_products) = 2 /\
  length (table WithReorderPoint (ran WithReorderPoint)) = 2.
Proof.
  assert (Hne : products two_products <> []) by discriminate.
  pose proof (ran_returned WithReorderPoint) as Hrun.
  split; [reflexivity | split; [exact Hne | split; [exact Hrun |]]].
  destruct (table_follows_catalog (tf := answering) WithReorderPoint two_products
              (ran WithReorderPoint) eq_refl Hne Hrun) as (Hb & Ha & _).
  split; [exact Hb | exact Ha].
Defined.

(** Widget, whose fields are all nonzero, keeps its cells in the revision
    without a metric column. *)
Lemma complete_rows_witness :
  predictionResults two_products = [] /\
  handlePredict (tf := answering) (revision_of Plain) two_products =
    (Returned tt, ran Plain) /\
  products two_products !! 0 = Some Widget /\
  truthy (average_weekly_sales Widget) = true /\
  truthy (lead_time Widget) = true /\
  truthy (stock Widget) = true /\
  exists before after,
    table Plain two_products !! 0 = Some before /\
    table Plain (ran Plain) !! 0 = Some after /\
    td_stock after = td_stock before /\
    td_sales after = td_sales before /\
    td_lead after = td_lead before.
Proof.
  pose proof (ran_returned Plain) as Hrun.
  split; [reflexivity |]. split; [exact Hrun |].
  split; [reflexivity |]. split; [reflexivity |].
  split; [reflexivity |]. split; [reflexivity |].
  destruct (complete_rows_keep_their_cells (tf := answering) Plain two_products (ran Plain)
              0 Widget eq_refl Hrun eq_refl eq_refl eq_refl (fun _ => eq_refl))
    as (before & after & Hb & Ha & _ & _ & Hst & Hs & Hl & _).
  exists before, after.
  split; [exact Hb | split; [exact Ha | split; [exact Hst | split; [exact Hs | exact Hl]]]].
Defined.

(** Shelfwarmer's weekly sales of 0 are shown before the run and gone after
    it. *)
Lemma zero_fields_vanish_witness :
  predictionResults edge_products = [] /\
  handlePredict (tf := answering) (revision_of WithDaysToReplenish) edge_products =
    (Returned tt, ran_edge WithDaysToReplenish) /\
  products edge_products !! 1 = Some Shelfwarmer /\
  exists before after,
    table WithDaysToReplenish edge_products !! 1 = Some before /\
    table WithDaysToReplenish (ran_edge WithDaysToReplenish) !! 1 = Some after /\
    td_sales before = lit 0 /\
    td_sales after = Undefined.
Proof.
  pose proof (ran_edge_returned WithDaysToReplenish) as Hrun.
  split; [reflexivity |]. split; [exact Hrun |]. split; [reflexivity |].
  destruct (zero_fields_vanish_after_a_run (tf := answering) WithDaysToReplenish
              edge_products (ran_edge WithDaysToReplenish) 1 Shelfwarmer
              eq_refl Hrun eq_refl)
    as (before & after & Hb & Ha & Hsb & _ & Hsa & _).
  exists before, after.
  split; [exact Hb | split; [exact Ha | split; [exact Hsb | exact Hsa]]].
Defined.

(** Widget, stock 10 against a reorder point of 14, is highlighted before
    and after the run. *)
Lemma reorder_point_highlight_witness :
  predictionResults two_products = [] /\
  handlePredict (tf := answering) ReorderPoint.rev two_products =
    (Returned tt, ran WithReorderPoint) /\
  products two_products !! 0 = Some Widget /\
  exists before after h,
    table WithReorderPoint two_products !! 0 = Some before /\
    table WithReorderPoint (ran WithReorderPoint) !! 0 = Some after /\
    td_metric before = Some (h, [Child (ReorderPoint.metric Widget)]) /\
    td_metric after = Some (h, [Child (ReorderPoint.metric Widget)]) /\
    (h = true <-> ReorderPoint.label Widget = lit 1).
Proof.
  pose proof (ran_returned WithReorderPoint) as Hrun.
  split; [reflexivity |]. split; [exact Hrun |]. split; [reflexivity |].
  exact (reorder_point_highlight_is_the_label (tf := answering) two_products
           (ran WithReorderPoint) 0 Widget eq_refl Hrun eq_refl).
Defined.

(** Instant, out of stock with no lead time, in the days-to-replenish
    table. *)
Lemma days_highlight_witness :
  predictionResults edge_products = [] /\
  handlePredict (tf := answering) DaysToReplenish.rev edge_products =
    (Returned tt, ran_edge WithDaysToReplenish) /\
  products edge_products !! 0 = Some Instant /\
  exists before after hb ha kb ka,
    table WithDaysToReplenish edge_products !! 0 = Some before /\
    table WithDaysToReplenish (ran_edge WithDaysToReplenish) !! 0 = Some after /\
    td_metric before = Some (hb, kb) /\
    td_metric after = Some (ha, ka) /\
    (hb = true -> DaysToReplenish.label Instant = lit 1) /\
    (ha = true -> DaysToReplenish.label Instant = lit 1).
Proof.
  pose proof (ran_edge_returned WithDaysToReplenish) as Hrun.
  split; [reflexivity |]. split; [exact Hrun |]. split; [reflexivity |].
  destruct (days_highlight_implies_the_label (tf := answering) edge_products
              (ran_edge WithDaysToReplenish) 0 Instant eq_refl Hrun eq_refl)
    as (before & after & hb & ha & kb & ka & Hb & Ha & Hmb & Hma & Hhb & Hha & _).
  exists before, after, hb, ha, kb, ka.
  split; [exact Hb | split; [exact Ha | split; [exact Hmb | split; [exact Hma |
    split; [exact Hhb | exact Hha]]]]].
Defined.

(** Instant is labelled 1 and highlighted before the run; after it, its
    lead time of 0 has vanished from the comparison and the highlight is
    gone. *)
Example Instant_loses_its_highlight :
  DaysToReplenish.label Instant = lit 1 /\
  (td_metric <$> table WithDaysToReplenish edge_products !! 0) =
    Some (Some (true, [Child (lit 0); Literal " Days"])) /\
  (td_metric <$> table WithDaysToReplenish (ran_edge WithDaysToReplenish) !! 0) =
    Some (Some (false, [Child (lit 0); Literal " Days"])).
Proof. vm_compute. repeat split. Qed.

(** Shelfwarmer has no sales. *)
Lemma no_sales_witness :
  predictionResults edge_products = [] /\
  handlePredict (tf := answering) DaysToReplenish.rev edge_products =
    (Returned tt, ran_edge WithDaysToReplenish) /\
  products edge_products !! 1 = Some Shelfwarmer /\
  truthy (average_weekly_sales Shelfwarmer) = false /\
  exists before after hb ha,
    table WithDaysToReplenish edge_products !! 1 = Some before /\
    table WithDaysToReplenish (ran_edge WithDaysToReplenish) !! 1 = Some after /\
    td_metric before = Some (hb, [Literal "> 999"; Literal " Days"]) /\
    td_metric after = Some (ha, [Literal "> 999"; Literal " Days"]).
Proof.
  pose proof (ran_edge_returned WithDaysToReplenish) as Hrun.
  split; [reflexivity |]. split; [exact Hrun |].
  split; [reflexivity |]. split; [reflexivity |].
  exact (no_sales_reads_more_than_999_days (tf := answering) edge_products
           (ran_edge WithDaysToReplenish) 1 Shelfwarmer eq_refl Hrun eq_refl eq_refl).
Defined.

(** Instant's stock of 0: the stock cell shows its weekly sales of 7 after
    the run. *)
Lemma plain_stock_cell_witness :
  predictionResults edge_products = [] /\
  handlePredict (tf := answering) SalesThreshold.rev edge_products =
    (Returned tt, ran_edge Plain) /\
  products edge_products !! 0 = Some Instant /\
  exists before after,
    table Plain edge_products !! 0 = Some before /\
    table Plain (ran_edge Plain) !! 0 = Some after /\
    td_stock before = Undefined /\
    td_stock after = lit 7.
Proof.
  pose proof (ran_edge_returned Plain) as Hrun.
  split; [reflexivity |]. split; [exact Hrun |]. split; [reflexivity |].
  destruct (plain_stock_cell_falls_back_to_sales (tf := answering) edge_products
              (ran_edge Plain) 0 Instant eq_refl Hrun eq_refl)
    as (before & after & Hb & Ha & Hsb & Hsa).
  exists before, after.
  split; [exact Hb | split; [exact Ha | split; [exact Hsb | exact Hsa]]].
Defined.

(** A fetch rejected with an empty message, right after the mount. *)
Lemma rejected_fetch_witness :
  reachable (tf := answering) (revision_of Plain) initial /\
  loading initial = true /\
  rtc (step (tf := answering) (revision_of Plain))
      (fetch_rejected EmptyString initial) (fetch_rejected EmptyString initial) /\
  render Plain (fetch_rejected EmptyString initial) = Alert "Error fetching products" /\
  products (fetch_rejected EmptyString initial) = [] /\
  fit_log (fetch_rejected EmptyString initial) = [].
Proof.
  assert (Hr : reachable (tf := answering) (revision_of Plain) initial) by apply rtc_refl.
  assert (Hs : rtc (step (tf := answering) (revision_of Plain))
                 (fetch_rejected EmptyString initial) (fetch_rejected EmptyString initial))
    by apply rtc_refl.
  split; [exact Hr | split; [reflexivity | split; [exact Hs |]]].
  exact (a_rejected_fetch_ends_the_session (tf := answering) Plain initial _ EmptyString
           Hr eq_refl Hs).
Defined.

(** The run on Widget in which [model.fit] throws. *)
Lemma run_that_throws_witness :
  reachable (tf := throwing) (revision_of WithReorderPoint) (loaded [Widget]) /\
  handlePredict (tf := throwing) (revision_of WithReorderPoint) (loaded [Widget]) =
    (Thrown, failed_run.2) /\
  render WithReorderPoint failed_run.2 =
    Page true "Predicting..." (table WithReorderPoint (loaded [Widget])) /\
  forall w'', rtc (ui_step (tf := throwing) WithReorderPoint) failed_run.2 w'' ->
              w'' = failed_run.2.
Proof.
  assert (Hr : reachable (tf := throwing) (revision_of WithReorderPoint) (loaded [Widget])).
  { apply rtc_once. apply (step_resolved _ initial [Widget]). reflexivity. }
  split; [exact Hr | split; [exact failed_run_thrown |]].
  exact (a_run_that_throws_disables_predict (tf := throwing) WithReorderPoint
           (loaded [Widget]) failed_run.2 Hr failed_run_thrown).
Defined.


(** Shelfwarmer: no sales, so a reorder point of 0 for its lead time of 30,
    and a label by [stock <= 0]. *)
Lemma reorder_point_zero_witness :
  truthy (average_weekly_sales Shelfwarmer) = false /\
  finite_input (average_weekly_sales Shelfwarmer) = true /\
  finite_input (lead_time Shelfwarmer) = true /\
  js_strict_eq (ReorderPoint.metric Shelfwarmer) (lit 0) = true /\
  ReorderPoint.label Shelfwarmer =
    (if js_le (stock Shelfwarmer) (lit 0) then lit 1 else lit 0).
Proof.
  split; [reflexivity |]. split; [reflexivity |]. split; [reflexivity |].
  exact (reorder_point_without_sales_or_lead_time Shelfwarmer
           (or_introl eq_refl) eq_refl eq_refl).
Defined.

(** SoldOut: weekly sales of 7, nothing in stock, three days of lead time. *)
Lemma sold_out_witness :
  truthy (stock SoldOut) = false /\
  average_weekly_sales SoldOut = Num (Number.of_Z 7) /\
  truthy (Num (Number.of_Z 7)) = true /\
  Number.is_finite (Number.of_Z 7) = true /\
  js_strict_eq (js_div (Num (Number.of_Z 7)) (lit 7)) (lit 0) = false /\
  nonneg_input (lead_time SoldOut) = true /\
  js_strict_eq (DaysToReplenish.metric SoldOut) (lit 0) = true /\
  DaysToReplenish.label SoldOut = lit 1.
Proof.
  split; [reflexivity |]. split; [reflexivity |]. split; [reflexivity |].
  split; [reflexivity |]. split; [reflexivity |]. split; [reflexivity |].
  exact (a_sold_out_record_is_labelled_reorder SoldOut (Number.of_Z 7)
           eq_refl eq_refl eq_refl eq_refl eq_refl eq_refl).
Defined.
